(** * Report-card grade entry backend (apps-script-backend.js)

    A shallow embedding of the Apps Script backend and the proofs of the
    properties stated about it.

    - [JS]: the fragment of JavaScript values and operators the script uses.
    - [Run]: the script's effects, a state monad over the spreadsheet tab
      and the clock in which a thrown exception keeps the state reached.
    - [Backend]: the functions of apps-script-backend.js.
    - [Store], [CsvSpec], [SummarySpec], [Samples]: what the properties are
      stated with, and concrete stores and submissions.
    - The sections after them: equations for running the script, then the
      properties, each under the number of the claim it settles. *)

From Stdlib Require Import String Ascii List ZArith Lia Bool Arith.
From Stdlib Require Import DecimalString.
Import ListNotations.
Local Open Scope string_scope.
Set Warnings "-register-all".

(* ================================================================== *)
(** ** JavaScript values *)
(* ================================================================== *)

Module JS.

(** Numbers.  The numbers of this script are marks, counts and string
    lengths: integers.  [NaN] is what arithmetic on [undefined] yields.
    Fractions, infinities and the sign of zero are not represented. *)
Inductive number : Type :=
| NaN
| Int (z : Z).

(** Values: what [JSON.parse] can produce, and [undefined], which is what
    reading a missing property gives.  A string is its sequence of code
    units, of which the first 256 are represented; an object is its own
    properties in insertion order, each key once. *)
Inductive value : Type :=
| VUndef
| VNull
| VBool (b : bool)
| VNum (n : number)
| VStr (s : string)
| VObj (props : list (string * value))
| VArr (items : list value).

(** What goes wrong.  [TypeError base prop]: property [prop] was read from
    (or called on) [base], which does not support it; [SyntaxError]: the
    request body is not JSON.  [error.message] is the engine's text for the
    fault. *)
Inductive fault : Type :=
| TypeError (base : value) (prop : string)
| SyntaxError (text : string).

(** The outcome of evaluating an expression or running a statement. *)
Inductive outcome (A : Type) : Type :=
| Ok (a : A)
| Throw (f : fault)
| Unmodelled.
Arguments Ok {A} a.
Arguments Throw {A} f.
Arguments Unmodelled {A}.
(** [Unmodelled] is not a JavaScript outcome: it marks a run that needs the
    numeric value of a non-empty string or of an object (numeric-literal
    parsing, [valueOf]/[toString] dispatch), which this model leaves out. *)

(** ToBoolean: [if (v)], [!v], [v || w]. *)
Definition truthy (v : value) : bool :=
  match v with
  | VUndef | VNull => false
  | VBool b => b
  | VNum NaN => false
  | VNum (Int z) => negb (z =? 0)%Z
  | VStr s => negb (s =? "")
  | VObj _ | VArr _ => true
  end.

(** [a || b] when [b] has no effect. *)
Definition or_else (a b : value) : value := if truthy a then a else b.

(** [a === b].  Two objects are equal only when they are the same
    reference; every object compared here is freshly decoded or freshly
    read, so the comparison of two objects is false. *)
Definition strict_eq (a b : value) : bool :=
  match a, b with
  | VUndef, VUndef => true
  | VNull, VNull => true
  | VBool x, VBool y => Bool.eqb x y
  | VNum (Int x), VNum (Int y) => (x =? y)%Z
  | VStr x, VStr y => (x =? y)
  | _, _ => false
  end.

(** [typeof v]. *)
Definition typeof (v : value) : string :=
  match v with
  | VUndef => "undefined"
  | VNull | VObj _ | VArr _ => "object"
  | VBool _ => "boolean"
  | VNum _ => "number"
  | VStr _ => "string"
  end.

(** Own-property lookup and assignment on the property list. *)
Fixpoint lookup (k : string) (props : list (string * value)) : value :=
  match props with
  | [] => VUndef
  | (k', v) :: rest => if k' =? k then v else lookup k rest
  end.

Fixpoint assign (k : string) (v : value) (props : list (string * value))
  : list (string * value) :=
  match props with
  | [] => [(k, v)]
  | (k', v') :: rest =>
      if k' =? k then (k, v) :: rest else (k', v') :: assign k v rest
  end.

Definition str_length (s : string) : value := VNum (Int (Z.of_nat (String.length s))).

(** [base.k] and [base[k]] for the keys this script reads: field names,
    skill names and [length], none of which is an array index or a name
    found on a prototype. *)
Definition get (base : value) (k : string) : outcome value :=
  match base with
  | VUndef | VNull => Throw (TypeError base k)
  | VObj props => Ok (lookup k props)
  | VStr s => Ok (if k =? "length" then str_length s else VUndef)
  | VArr items =>
      Ok (if k =? "length" then VNum (Int (Z.of_nat (List.length items))) else VUndef)
  | VBool _ | VNum _ => Ok VUndef
  end.

(** [row[i]] on an array. *)
Definition index (r : list value) (i : nat) : value := nth i r VUndef.

(** Number to string: decimal digits, a minus sign for negatives. *)
Definition number_to_string (n : number) : string :=
  match n with
  | NaN => "NaN"
  | Int z => NilZero.string_of_int (Z.to_int z)
  end.

(** [String(v)]. *)
Fixpoint String_ (v : value) : string :=
  match v with
  | VUndef => "undefined"
  | VNull => "null"
  | VBool true => "true"
  | VBool false => "false"
  | VNum n => number_to_string n
  | VStr s => s
  | VObj _ => "[object Object]"
  | VArr items =>
      let elt x := match x with VUndef | VNull => "" | _ => String_ x end in
      (fix join (l : list value) : string :=
         match l with
         | [] => ""
         | x :: rest =>
             match rest with
             | [] => elt x
             | _ :: _ => elt x ++ "," ++ join rest
             end
         end) items
  end.

(** ToNumber, where it is modelled. *)
Definition to_number (v : value) : outcome number :=
  match v with
  | VUndef => Ok NaN
  | VNull => Ok (Int 0)
  | VBool b => Ok (Int (if b then 1 else 0))
  | VNum n => Ok n
  | VStr s => if s =? "" then Ok (Int 0) else Unmodelled
  | VObj _ | VArr _ => Unmodelled
  end.

(** [a + b]: concatenation when either operand is a string, numeric
    addition otherwise. *)
Definition add (a b : value) : outcome value :=
  match a, b with
  | (VObj _ | VArr _), _ | _, (VObj _ | VArr _) => Unmodelled
  | VStr s, _ => Ok (VStr (s ++ String_ b))
  | _, VStr s => Ok (VStr (String_ a ++ s))
  | _, _ =>
      match to_number a, to_number b with
      | Ok (Int x), Ok (Int y) => Ok (VNum (Int (x + y)))
      | Ok _, Ok _ => Ok (VNum NaN)
      | Throw f, _ | _, Throw f => Throw f
      | _, _ => Unmodelled
      end
  end.

(** [v > bound] for a numeric literal [bound]. *)
Definition gt (v : value) (bound : Z) : outcome bool :=
  match to_number v with
  | Ok NaN => Ok false
  | Ok (Int x) => Ok (bound <? x)%Z
  | Throw f => Throw f
  | Unmodelled => Unmodelled
  end.

(** [Math.round(a / b)] for a positive integer [b]: the quotient taken
    exactly, then rounded to the nearest integer, a half going up. *)
Definition round_div (a : value) (b : Z) : outcome value :=
  match to_number a with
  | Ok NaN => Ok (VNum NaN)
  | Ok (Int x) => Ok (VNum (Int ((2 * x + b) / (2 * b))))
  | Throw f => Throw f
  | Unmodelled => Unmodelled
  end.

(** [s.includes(c)] for a one-character needle. *)
Fixpoint includes_char (c : ascii) (s : string) : bool :=
  match s with
  | EmptyString => false
  | String d rest => if Ascii.eqb d c then true else includes_char c rest
  end.

(** [s.replace(/c/g, by)]: every occurrence of the character replaced. *)
Fixpoint replace_all (c : ascii) (by_ : string) (s : string) : string :=
  match s with
  | EmptyString => EmptyString
  | String d rest =>
      if Ascii.eqb d c then by_ ++ replace_all c by_ rest
      else String d (replace_all c by_ rest)
  end.

(** [s.toLowerCase()] on the letters A to Z. *)
Definition lower_char (c : ascii) : ascii :=
  let n := nat_of_ascii c in
  if (65 <=? n)%nat && (n <=? 90)%nat then ascii_of_nat (n + 32) else c.

Fixpoint toLowerCase (s : string) : string :=
  match s with
  | EmptyString => EmptyString
  | String c rest => String (lower_char c) (toLowerCase rest)
  end.

(** [cells.join(sep)] on an array of strings. *)
Fixpoint join (sep : string) (cells : list string) : string :=
  match cells with
  | [] => ""
  | c :: rest =>
      match rest with
      | [] => c
      | _ :: _ => c ++ sep ++ join sep rest
      end
  end.

(** [names.includes(v)] on an array of strings. *)
Definition includes (names : list string) (v : value) : bool :=
  existsb (fun n => strict_eq (VStr n) v) names.

End JS.
Import JS.

(* ================================================================== *)
(** ** The script's effects *)
(* ================================================================== *)

Module Run.

(** A row is the array of its cells, the grid the array of rows that
    [getDataRange().getValues()] returns: row 1 first.  The tab gives back
    the values that were written to it. *)
Definition row : Type := list value.
Definition grid : Type := list row.

(** The world a run sees: the tab named SHEET_NAME of the spreadsheet
    ([None] before the tab exists), and the clock, [clock k] being the ISO
    string of the [k]-th [new Date()] of the run. *)
Record world : Type := {
  sheet : option grid;
  clock : nat -> string;
  reads : nat
}.

Definition with_sheet (g : grid) (w : world) : world :=
  {| sheet := Some g; clock := clock w; reads := reads w |}.

(** A statement: from a world to an outcome and the world it leaves.  A
    thrown exception keeps what was written before it. *)
Definition run (A : Type) : Type := world -> outcome A * world.

Definition ret {A} (a : A) : run A := fun w => (Ok a, w).

Definition bind {A B} (m : run A) (k : A -> run B) : run B :=
  fun w =>
    match m w with
    | (Ok a, w') => k a w'
    | (Throw f, w') => (Throw f, w')
    | (Unmodelled, w') => (Unmodelled, w')
    end.

Definition lift {A} (o : outcome A) : run A := fun w => (o, w).

(** [try { body } catch (error) { handler }]. *)
Definition try_catch {A} (body : run A) (handler : fault -> run A) : run A :=
  fun w =>
    match body w with
    | (Throw f, w') => handler f w'
    | other => other
    end.

(** Sequencing inside an expression, without a world. *)
Definition obind {A B} (o : outcome A) (k : A -> outcome B) : outcome B :=
  match o with
  | Ok a => k a
  | Throw f => Throw f
  | Unmodelled => Unmodelled
  end.

Declare Scope run_scope.
Delimit Scope run_scope with run.
Notation "x <- m ;; k" := (bind m (fun x => k))
  (at level 61, m at next level, right associativity) : run_scope.
Notation "m ;;; k" := (bind m (fun _ => k))
  (at level 61, right associativity) : run_scope.
Notation "x <~ o ;; k" := (obind o (fun x => k))
  (at level 61, o at next level, right associativity) : run_scope.

(** [new Date().toISOString()]. *)
Definition Date_toISOString : run value :=
  fun w =>
    (Ok (VStr (clock w (reads w))),
     {| sheet := sheet w; clock := clock w; reads := S (reads w) |}).

(** *** The spreadsheet service, as far as the script calls it *)

(** [sheet.getLastRow()]: the position of the last row with content. *)
Definition getLastRow (g : grid) : nat := List.length g.

(** Writing [r] over the cells of a row from column 1: the cells to the
    right of the written range stay. *)
Definition overwrite (r old : row) : row := (r ++ skipn (List.length r) old)%list.

(** [sheet.getRange(pos, 1, 1, r.length).setValues([r])], [pos] counted
    from 1; rows skipped below the last row come out blank. *)
Fixpoint setValues (pos : nat) (r : row) (g : grid) : grid :=
  match pos with
  | O => g
  | S O =>
      match g with
      | [] => [r]
      | old :: rest => overwrite r old :: rest
      end
  | S p =>
      match g with
      | [] => repeat (VStr "") (List.length r) :: setValues p r []
      | old :: rest => old :: setValues p r rest
      end
  end.

(** [sheet.appendRow(r)]. *)
Definition appendRow (r : row) (g : grid) : grid := (g ++ [r])%list.

(** [sheet.getDataRange().getValues()]: on a sheet without content the
    data range is the single empty cell A1. *)
Definition getValues : run grid :=
  fun w =>
    match sheet w with
    | Some (r :: g) => (Ok (r :: g), w)
    | _ => (Ok [[VStr ""]], w)
    end.

(** A write to the sheet obtained from [getOrCreateSheet]. *)
Definition update (f : grid -> grid) : run unit :=
  fun w =>
    match sheet w with
    | Some g => (Ok tt, with_sheet (f g) w)
    | None => (Ok tt, w)
    end.

(** [sheet.deleteRows(pos, howMany)], [pos] counted from 1. *)
Definition deleteRows (pos howMany : nat) (g : grid) : grid :=
  (firstn (pos - 1) g ++ skipn (pos - 1 + howMany) g)%list.

(** [sheet.getLastRow()] on the sheet obtained from [getOrCreateSheet]. *)
Definition lastRow : run nat :=
  fun w =>
    match sheet w with
    | Some g => (Ok (getLastRow g), w)
    | None => (Ok 0%nat, w)
    end.

End Run.
Import Run.
Local Open Scope run_scope.

(* ================================================================== *)
(** ** apps-script-backend.js *)
(* ================================================================== *)

Module Backend.

(** *** Configuration *)

Definition LEARNING_SKILLS : list string :=
  [ "Responsibility";
    "Organization";
    "Independent Work";
    "Collaboration";
    "Initiative";
    "Self-Regulation" ].

(** *** Helper functions *)

(** [getHeaders()]. *)
Definition getHeaders : list string :=
  let headers :=
    [ "Timestamp";
      "Teacher Email";
      "Teacher Name";
      "Course";
      "Student Name";
      "Percentage Mark";
      "Classes Missed";
      "Times Late" ]%list in
  let headers :=
    fold_left (fun headers skill => (headers ++ [skill])%list) LEARNING_SKILLS headers in
  let headers := (headers ++ ["Comment"])%list in
  (headers ++ ["Last Modified"])%list.

(** [setupSheetHeaders(sheet)]: the header row written into row 1.  The
    calls after it (font weight, background, column widths, frozen row)
    touch no cell content. *)
Definition setupSheetHeaders : run unit :=
  let headers := getHeaders in
  update (setValues 1 (map VStr headers)).

(** [getOrCreateSheet()].  The script works on one tab; [sheet] of the
    world is that tab and the returned handle is left implicit. *)
Definition getOrCreateSheet : run unit :=
  fun w =>
    match sheet w with
    | None => setupSheetHeaders (with_sheet [] w)
    | Some g => if (getLastRow g =? 0)%nat then setupSheetHeaders w else (Ok tt, w)
    end.

Definition courseCol : nat := 3.
Definition studentCol : nat := 4.

(** The loop of [findStudentRow]: [rows] are [data[i]], [data[i+1]], ... *)
Fixpoint findStudentRow_loop (i : nat) (rows : list row)
    (studentName courseName : value) : nat :=
  match rows with
  | [] => 0
  | r :: rest =>
      if strict_eq (index r studentCol) studentName
         && strict_eq (index r courseCol) courseName
      then i + 1
      else findStudentRow_loop (S i) rest studentName courseName
  end.

(** [findStudentRow(sheet, studentName, courseName)]. *)
Definition findStudentRow (studentName courseName : value) : run nat :=
  data <- getValues ;;
  ret (findStudentRow_loop 1 (skipn 1 data) studentName courseName).

(** [header.toLowerCase().replace(/ /g, '_')]. *)
Definition header_key (header : value) : outcome string :=
  match header with
  | VStr s => Ok (replace_all " "%char "_" (toLowerCase s))
  | _ => Throw (TypeError header "toLowerCase")
  end.

(** [if (!obj.skills) obj.skills = {}; obj.skills[header] = v].  Assigning
    to a property of a primitive does nothing. *)
Definition set_skill (header : string) (v : value)
    (obj : list (string * value)) : outcome (list (string * value)) :=
  let obj := if truthy (lookup "skills" obj) then obj
             else assign "skills" (VObj []) obj in
  match lookup "skills" obj with
  | VObj ps => Ok (assign "skills" (VObj (assign header v ps)) obj)
  | VArr _ => Unmodelled
  | _ => Ok obj
  end.

(** The loop of [rowToObject]: [headers] are [headers[i]], [headers[i+1]], ... *)
Fixpoint rowToObject_loop (i : nat) (headers : list value) (r : row)
    (obj : list (string * value)) : outcome (list (string * value)) :=
  match headers with
  | [] => Ok obj
  | header :: rest =>
      obj' <~
        (if includes LEARNING_SKILLS header
         then set_skill (String_ header) (index r i) obj
         else
           key <~ header_key header ;;
           if key =? "__proto__" then Unmodelled
           else Ok (assign key (index r i) obj)) ;;
      rowToObject_loop (S i) rest r obj'
  end.

(** [rowToObject(headers, row)]. *)
Definition rowToObject (headers : list value) (r : row) : outcome value :=
  obj <~ rowToObject_loop 0 headers r [] ;;
  Ok (VObj obj).

(** *** Data operations *)

(** [{ success, action, student, course }]. *)
Inductive save_result : Type :=
| SaveResult (success : bool) (action : string) (student course : value).

(** [{ success, entries }]. *)
Inductive entries_result : Type :=
| EntriesResult (success : bool) (entries : list value).

Definition entries_of (r : entries_result) : list value :=
  match r with EntriesResult _ entries => entries end.

(** The loop pushing one cell per learning skill. *)
Fixpoint push_skills (data : value) (skills : list string) (rowData : row)
  : run row :=
  match skills with
  | [] => ret rowData
  | skill :: rest =>
      skills_obj <- lift (get data "skills") ;;
      rating <- lift (get skills_obj skill) ;;
      push_skills data rest (rowData ++ [or_else rating (VStr "")])%list
  end.

(** The row-building step of [saveGradeEntry]: "Prepare row data" up to
    the push of the last-modified stamp. *)
Definition buildRow (data : value) : run row :=
  timestamp <- lift (get data "timestamp") ;;
  timestamp <- (if truthy timestamp then ret timestamp else Date_toISOString) ;;
  teacher <- lift (get data "teacher") ;;
  teacherName <- lift (get data "teacherName") ;;
  course <- lift (get data "course") ;;
  student <- lift (get data "student") ;;
  percentageMark <- lift (get data "percentageMark") ;;
  classesMissed <- lift (get data "classesMissed") ;;
  timesLate <- lift (get data "timesLate") ;;
  let rowData :=
    [ timestamp;
      teacher;
      teacherName;
      or_else course (VStr "");
      student;
      or_else percentageMark (VStr "");
      or_else classesMissed (VStr "");
      or_else timesLate (VStr "") ]%list in
  rowData <- push_skills data LEARNING_SKILLS rowData ;;
  comment <- lift (get data "comment") ;;
  let rowData := (rowData ++ [comment])%list in
  lastModified <- Date_toISOString ;;
  ret (rowData ++ [lastModified])%list.

(** [saveGradeEntry(data)].  The [headers] it fetches are not used. *)
Definition saveGradeEntry (data : value) : run save_result :=
  getOrCreateSheet ;;;
  student <- lift (get data "student") ;;
  course <- lift (get data "course") ;;
  existingRow <- findStudentRow student course ;;
  rowData <- buildRow data ;;
  if (0 <? existingRow)%nat then
    update (setValues existingRow rowData) ;;;
    student <- lift (get data "student") ;;
    course <- lift (get data "course") ;;
    ret (SaveResult true "updated" student course)
  else
    update (appendRow rowData) ;;;
    student <- lift (get data "student") ;;
    course <- lift (get data "course") ;;
    ret (SaveResult true "created" student course).

Fixpoint map_outcome {A B} (f : A -> outcome B) (l : list A) : outcome (list B) :=
  match l with
  | [] => Ok []%list
  | a :: rest =>
      b <~ f a ;;
      bs <~ map_outcome f rest ;;
      Ok (b :: bs)%list
  end.

Fixpoint filter_outcome {A} (p : A -> outcome bool) (l : list A) : outcome (list A) :=
  match l with
  | [] => Ok []%list
  | a :: rest =>
      keep <~ p a ;;
      kept <~ filter_outcome p rest ;;
      Ok (if keep then a :: kept else kept)%list
  end.

(** [getAllEntries()]. *)
Definition getAllEntries : run entries_result :=
  getOrCreateSheet ;;;
  data <- getValues ;;
  if (List.length data <=? 1)%nat then ret (EntriesResult true [])
  else
    let headers := nth 0 data []%list in
    entries <- lift (map_outcome (fun r => rowToObject headers r) (skipn 1 data)) ;;
    ret (EntriesResult true entries).

(** [getEntriesByTeacher(teacherEmail)]. *)
Definition getEntriesByTeacher (teacherEmail : value) : run entries_result :=
  allData <- getAllEntries ;;
  filtered <- lift (filter_outcome
    (fun entry => v <~ get entry "teacher_email" ;; Ok (strict_eq v teacherEmail))
    (entries_of allData)) ;;
  ret (EntriesResult true filtered).

(** [getEntriesByStudent(studentName)]. *)
Definition getEntriesByStudent (studentName : value) : run entries_result :=
  allData <- getAllEntries ;;
  filtered <- lift (filter_outcome
    (fun entry => v <~ get entry "student" ;; Ok (strict_eq v studentName))
    (entries_of allData)) ;;
  ret (EntriesResult true filtered).

(** *** Main handler *)

(** [{ success: false, error: error.message }]. *)
Inductive error_result : Type :=
| ErrorResult (success : bool) (error : fault).

(** [doPost(e)].  [parsed] is the outcome of
    [JSON.parse(e.postData.contents)]; the reply is the object handed to
    [JSON.stringify]. *)
Definition doPost (parsed : outcome value) : run (save_result + error_result) :=
  try_catch
    (data <- lift parsed ;;
     result <- saveGradeEntry data ;;
     ret (inl result))
    (fun error => ret (inr (ErrorResult false error))).

(** *** Utility functions *)

Definition comma : ascii := ","%char.
Definition dquote : ascii := "034"%char.
Definition newline : ascii := "010"%char.
Definition str1 (c : ascii) : string := String c EmptyString.

(** The cell callback of [exportToCsv]. *)
Definition csv_cell (cell : value) : string :=
  let str := String_ cell in
  if includes_char comma str || includes_char dquote str || includes_char newline str
  then str1 dquote ++ replace_all dquote (str1 dquote ++ str1 dquote) str ++ str1 dquote
  else str.

(** [exportToCsv()]. *)
Definition exportToCsv : run string :=
  getOrCreateSheet ;;;
  data <- getValues ;;
  let csv :=
    fold_left
      (fun csv r => csv ++ (join (str1 comma) (map csv_cell r) ++ str1 newline))
      data "" in
  ret csv.

(** The summary, without its [byTeacher] and [byGrade] tallies: they are
    counters of their own, which neither feed the other fields nor throw. *)
Record summary : Type := {
  totalEntries : nat;
  averageCommentLength : value
}.

(** The loop of [generateSummaryReport], on [totalCommentLength]. *)
Fixpoint summary_loop (entries : list value) (totalCommentLength : value)
  : outcome value :=
  match entries with
  | [] => Ok totalCommentLength
  | entry :: rest =>
      teacher_name <~ get entry "teacher_name" ;;
      grade <~ get entry "grade" ;;
      comment <~ get entry "comment" ;;
      len <~ get (or_else comment (VStr "")) "length" ;;
      totalCommentLength <~ add totalCommentLength len ;;
      summary_loop rest totalCommentLength
  end.

(** [generateSummaryReport()]. *)
Definition generateSummaryReport : run summary :=
  allData <- getAllEntries ;;
  let entries := entries_of allData in
  totalCommentLength <- lift (summary_loop entries (VNum (Int 0))) ;;
  average <-
    (if (0 <? List.length entries)%nat
     then lift (round_div totalCommentLength (Z.of_nat (List.length entries)))
     else ret (VNum (Int 0))) ;;
  ret {| totalEntries := List.length entries; averageCommentLength := average |}.

(** *** Validation *)

(** The loop over the learning skills in [validateData]. *)
Fixpoint validate_skills (data : value) (skills : list string)
    (errors : list string) : outcome (list string) :=
  match skills with
  | [] => Ok errors
  | skill :: rest =>
      skills_obj <~ get data "skills" ;;
      rating <~ get skills_obj skill ;;
      validate_skills data rest
        (if negb (truthy rating)
         then (errors ++ [(skill ++ " rating is required")%string])%list
         else errors)
  end.

(** [validateData(data)]. *)
Definition validateData (data : value) : outcome (list string) :=
  let errors := []%list in
  teacher <~ get data "teacher" ;;
  let errors :=
    if negb (truthy teacher)
    then (errors ++ ["Teacher email is required"])%list else errors in
  student <~ get data "student" ;;
  let errors :=
    if negb (truthy student)
    then (errors ++ ["Student name is required"])%list else errors in
  grade <~ get data "grade" ;;
  let errors :=
    if negb (truthy grade)
    then (errors ++ ["Grade is required"])%list else errors in
  skills <~ get data "skills" ;;
  errors <~
    (if negb (truthy skills) || negb (typeof skills =? "object")
     then Ok (errors ++ ["Learning skills are required"])%list
     else validate_skills data LEARNING_SKILLS errors) ;;
  comment <~ get data "comment" ;;
  if negb (truthy comment)
  then Ok (errors ++ ["Comment is required"])%list
  else
    len <~ get comment "length" ;;
    too_long <~ gt len 500 ;;
    Ok (if too_long
        then (errors ++ ["Comment must be 500 characters or less"])%list
        else errors).

(** [clearAllData()]. *)
Definition clearAllData : run unit :=
  getOrCreateSheet ;;;
  lastRow <- lastRow ;;
  if (1 <? lastRow)%nat then update (deleteRows 2 (lastRow - 1)) else ret tt.

(** *** The GET handler *)

(** What [ContentService.createTextOutput(content).setMimeType(mime)]
    returns. *)
Inductive mime : Type :=
| JSON
| JAVASCRIPT.

Inductive text_output : Type :=
| TextOutput (content : string) (mimeType : mime).

(** The [result] of [doGet]: an entries envelope or [{ message }]. *)
Inductive get_result : Type :=
| GetEntries (r : entries_result)
| GetMessage (message : string).

Definition api_message : string :=
  "Report Card API is running. Available actions: getAll, getByTeacher, getByStudent".

(** [callback + '(' + body + ')']. *)
Definition jsonp (callback : value) (body : string) : outcome string :=
  head <~ add callback (VStr "(") ;;
  Ok (String_ head ++ body ++ ")").

Section Handlers.

(** [JSON.stringify], on what [doGet] hands to it. *)
Variable JSON_stringify : get_result + error_result -> string.

(** The [switch] of [doGet]. *)
Definition dispatch (e : value) (action : value) : run get_result :=
  if strict_eq action (VStr "getAll") then
    r <- getAllEntries ;;
    ret (GetEntries r)
  else if strict_eq action (VStr "getByTeacher") then
    parameter <- lift (get e "parameter") ;;
    teacher <- lift (get parameter "teacher") ;;
    r <- getEntriesByTeacher teacher ;;
    ret (GetEntries r)
  else if strict_eq action (VStr "getByStudent") then
    parameter <- lift (get e "parameter") ;;
    student <- lift (get parameter "student") ;;
    r <- getEntriesByStudent student ;;
    ret (GetEntries r)
  else ret (GetMessage api_message).

(** [doGet(e)]. *)
Definition doGet (e : value) : run text_output :=
  parameter <- lift (get e "parameter") ;;
  action <- lift (get parameter "action") ;;
  parameter <- lift (get e "parameter") ;;
  callback <- lift (get parameter "callback") ;;
  try_catch
    (result <- dispatch e action ;;
     let jsonOutput := JSON_stringify (inl result) in
     if truthy callback then
       content <- lift (jsonp callback jsonOutput) ;;
       ret (TextOutput content JAVASCRIPT)
     else ret (TextOutput jsonOutput JSON))
    (fun error =>
       let errorResult := JSON_stringify (inr (ErrorResult false error)) in
       parameter <- lift (get e "parameter") ;;
       callback <- lift (get parameter "callback") ;;
       if truthy callback then
         content <- lift (jsonp callback errorResult) ;;
         ret (TextOutput content JAVASCRIPT)
       else ret (TextOutput errorResult JSON)).

End Handlers.

(** [testSaveEntry]'s sample entry; the timestamp is the clock's. *)
Definition testData (timestamp : string) : value :=
  VObj
    [ ("teacher", VStr "teacher1@school.edu");
      ("teacherName", VStr "Ms. Johnson");
      ("course", VStr "Math 7A");
      ("student", VStr "Test Student");
      ("percentageMark", VNum (Int 85));
      ("classesMissed", VNum (Int 2));
      ("timesLate", VNum (Int 1));
      ("skills",
        VObj
          [ ("Responsibility", VStr "Excellent");
            ("Organization", VStr "Good");
            ("Independent Work", VStr "Excellent");
            ("Collaboration", VStr "Satisfactory");
            ("Initiative", VStr "Good");
            ("Self-Regulation", VStr "Excellent") ]);
      ("comment", VStr "This is a test comment for the report card entry system.");
      ("timestamp", VStr timestamp) ].

End Backend.
Import Backend.

(* ================================================================== *)
(** ** What the properties are stated with *)
(* ================================================================== *)

Module Store.

(** The data rows of the store: the rows below the header row. *)
Definition data_rows (w : world) : list row :=
  match sheet w with
  | Some (_ :: rows) => rows
  | _ => []%list
  end.

(** The header row, and the header row a fresh tab receives. *)
Definition fresh_header : row := map VStr getHeaders.

Definition header_row (w : world) : row :=
  match sheet w with
  | Some (h :: _) => h
  | _ => fresh_header
  end.

(** The world with [k] more clock readings taken. *)
Definition advance (k : nat) (w : world) : world :=
  {| sheet := sheet w; clock := clock w; reads := k + reads w |}.

(** A row carries the key ([studentName], [courseName]): the test of
    [findStudentRow]. *)
Definition has_key (studentName courseName : value) (r : row) : bool :=
  strict_eq (index r studentCol) studentName
  && strict_eq (index r courseCol) courseName.

(** Data rows are keyed by (student, course): no key is carried twice. *)
Definition keyed (rows : list row) : Prop :=
  forall studentName courseName,
    (List.length (filter (has_key studentName courseName) rows) <= 1)%nat.

(** Data rows are aligned with the schema: one cell per header. *)
Definition aligned (rows : list row) : Prop :=
  Forall (fun r => List.length r = List.length getHeaders) rows.

(** Replace the first row carrying the key by [r] written over it, or add
    [r] at the end when no row carries the key. *)
Fixpoint upsert (studentName courseName : value) (r : row) (rows : list row)
  : list row :=
  match rows with
  | [] => [r]%list
  | x :: rest =>
      if has_key studentName courseName x
      then (overwrite r x :: rest)%list
      else (x :: upsert studentName courseName r rest)%list
  end.

Definition is_nullish (v : value) : bool :=
  match v with
  | VUndef | VNull => true
  | _ => false
  end.

(** [skills_obj[skill]] where the read does not throw. *)
Definition rating (skills_obj : value) (skill : string) : value :=
  match get skills_obj skill with
  | Ok v => v
  | _ => VUndef
  end.

(** The row of a submission with properties [ps], given the two stamps. *)
Definition cells (ps : list (string * value)) (timestamp lastModified : value)
  : row :=
  ([ timestamp;
     lookup "teacher" ps;
     lookup "teacherName" ps;
     or_else (lookup "course" ps) (VStr "");
     lookup "student" ps;
     or_else (lookup "percentageMark" ps) (VStr "");
     or_else (lookup "classesMissed" ps) (VStr "");
     or_else (lookup "timesLate" ps) (VStr "") ]
   ++ map (fun skill => or_else (rating (lookup "skills" ps) skill) (VStr ""))
        LEARNING_SKILLS
   ++ [ lookup "comment" ps; lastModified ])%list.

(** The stamps [buildRow] takes in world [w]. *)
Definition timestamp_in (w : world) (ps : list (string * value)) : value :=
  if truthy (lookup "timestamp" ps) then lookup "timestamp" ps
  else VStr (clock w (reads w)).

Definition lastModified_in (w : world) (ps : list (string * value)) : value :=
  if truthy (lookup "timestamp" ps) then VStr (clock w (reads w))
  else VStr (clock w (S (reads w))).

Definition stamps_taken (ps : list (string * value)) : nat :=
  if truthy (lookup "timestamp" ps) then 1 else 2.

Definition row_in (w : world) (ps : list (string * value)) : row :=
  cells ps (timestamp_in w ps) (lastModified_in w ps).

(** A submission [saveGradeEntry] can build a row from: an object whose
    [skills] can be indexed. *)
Definition savable (data : value) : bool :=
  match data with
  | VObj ps => negb (is_nullish (lookup "skills" ps))
  | _ => false
  end.

(** The optional numeric fields and the columns they are written to. *)
Definition optional_numeric : list (string * nat) :=
  ([ ("percentageMark", 5%nat); ("classesMissed", 6%nat); ("timesLate", 7%nat) ])%list.

(** A submission that can be saved and carries the pair ([s], [c]) as its
    student and course. *)
Definition carries (s c : string) (data : value) : bool :=
  match data with
  | VObj ps =>
      strict_eq (lookup "student" ps) (VStr s)
      && strict_eq (lookup "course" ps) (VStr c)
      && negb (is_nullish (lookup "skills" ps))
  | _ => false
  end.

(** The rows carrying the key, and the other rows. *)
Definition rows_of (s c : value) (rows : list row) : list row :=
  filter (has_key s c) rows.

Definition rows_beside (s c : value) (rows : list row) : list row :=
  filter (fun r => negb (has_key s c r)) rows.

(** The entry [rowToObject] makes of row [r] under the header row of
    [getHeaders]: keys derived from the headers, the skill columns grouped
    under [skills]. *)
Definition entry_of_row (r : row) : list (string * value) :=
  ([ ("timestamp", index r 0);
     ("teacher_email", index r 1);
     ("teacher_name", index r 2);
     ("course", index r 3);
     ("student_name", index r 4);
     ("percentage_mark", index r 5);
     ("classes_missed", index r 6);
     ("times_late", index r 7);
     ("skills",
       VObj [ ("Responsibility", index r 8);
              ("Organization", index r 9);
              ("Independent Work", index r 10);
              ("Collaboration", index r 11);
              ("Initiative", index r 12);
              ("Self-Regulation", index r 13) ]);
     ("comment", index r 14);
     ("last_modified", index r 15) ])%list.

(** Fields of a submission stored as they are, and the key each comes
    back under. *)
Definition stored_as_is : list (string * string) :=
  ([ ("teacher", "teacher_email");
     ("teacherName", "teacher_name");
     ("student", "student_name");
     ("comment", "comment") ])%list.

(** Fields stored through [|| ''], and the key each comes back under. *)
Definition stored_or_empty : list (string * string) :=
  ([ ("course", "course");
     ("percentageMark", "percentage_mark");
     ("classesMissed", "classes_missed");
     ("timesLate", "times_late") ])%list.


(** The two messages of [validateData] about the comment. *)
Definition comment_required : string := "Comment is required".
Definition comment_too_long : string := "Comment must be 500 characters or less".

Definition is_comment_error (message : string) : bool :=
  (message =? comment_required) || (message =? comment_too_long).

Definition comment_errors (errors : list string) : list string :=
  filter is_comment_error errors.

(** Submissions applied one after the other. *)
Fixpoint submit_all (submissions : list value) : run (list save_result) :=
  match submissions with
  | [] => ret []%list
  | data :: rest =>
      result <- saveGradeEntry data ;;
      results <- submit_all rest ;;
      ret (result :: results)%list
  end.

End Store.
Import Store.

(* ================================================================== *)
(** ** Delimited text and summary, as specified *)
(* ================================================================== *)

Module CsvSpec.

(** The escaping rule in the specification's words: a cell containing a
    comma, a double quote or a newline is wrapped in double quotes, its
    double quotes doubled; any other cell is emitted as it is.  A row is
    its cells joined by commas and ended by a newline; the text is the
    rows one after the other. *)
Definition special (c : ascii) : bool :=
  Ascii.eqb c comma || Ascii.eqb c dquote || Ascii.eqb c newline.

Definition needs_quotes (s : string) : bool :=
  existsb special (list_ascii_of_string s).

Definition doubled (s : string) : string :=
  string_of_list_ascii
    (flat_map (fun c => if Ascii.eqb c dquote then [dquote; dquote] else [c])%list
       (list_ascii_of_string s)).

Definition field (cell : value) : string :=
  let s := String_ cell in
  if needs_quotes s then str1 dquote ++ doubled s ++ str1 dquote else s.

Definition line (r : row) : string :=
  String.concat (str1 comma) (map field r) ++ str1 newline.

Definition render (table : grid) : string :=
  String.concat "" (map line table).

End CsvSpec.

Module SummarySpec.

(** The length of an entry's comment, an absent comment counting 0. *)
Definition comment_length (entry : value) : Z :=
  match entry with
  | VObj ps =>
      match lookup "comment" ps with
      | VStr s => Z.of_nat (String.length s)
      | _ => 0%Z
      end
  | _ => 0%Z
  end.

Definition total_length (entries : list value) : Z :=
  fold_right Z.add 0%Z (map comment_length entries).

(** An entry whose comment is a string, or is absent. *)
Definition well_commented (entry : value) : bool :=
  match entry with
  | VObj ps =>
      match lookup "comment" ps with
      | VStr _ => true
      | other => negb (truthy other)
      end
  | _ => false
  end.

(** [k] is the integer nearest to [total / n], a half going up. *)
Definition nearest (total n k : Z) : Prop :=
  (2 * n * k - n <= 2 * total < 2 * n * k + n)%Z.

End SummarySpec.

(* ================================================================== *)
(** ** Sample worlds and submissions *)
(* ================================================================== *)

Module Samples.

(** A spreadsheet without the Grades tab; the [k]-th clock reading is
    written [T<k>]. *)
Definition fresh_world : world :=
  {| sheet := None;
     clock := fun k => "T" ++ NilZero.string_of_uint (Nat.to_uint k);
     reads := 0 |}.

Definition all_skills (level : string) : value :=
  VObj (map (fun skill => (skill, VStr level)) LEARNING_SKILLS).

(** A submission with every field the validation asks for. *)
Definition complete_props : list (string * value) :=
  [ ("teacher", VStr "teacher1@school.edu");
    ("teacherName", VStr "Ms. Johnson");
    ("course", VStr "Math 7A");
    ("student", VStr "Test Student");
    ("grade", VStr "7");
    ("percentageMark", VNum (Int 85));
    ("classesMissed", VNum (Int 2));
    ("timesLate", VNum (Int 1));
    ("skills", all_skills "Good");
    ("comment", VStr "Steady progress this term.") ].

Definition complete_entry : value := VObj complete_props.

(** The same student and course, other marks and comment. *)
Definition revised_props : list (string * value) :=
  [ ("teacher", VStr "teacher1@school.edu");
    ("teacherName", VStr "Ms. Johnson");
    ("course", VStr "Math 7A");
    ("student", VStr "Test Student");
    ("grade", VStr "7");
    ("percentageMark", VNum (Int 91));
    ("skills", all_skills "Excellent");
    ("comment", VStr "Much improved.") ].

Definition revised_entry : value := VObj revised_props.

(** Mark recorded as zero, and mark not recorded. *)
Definition no_mark_props : list (string * value) :=
  [ ("teacher", VStr "t@school.edu");
    ("student", VStr "Ada");
    ("course", VStr "Art");
    ("skills", all_skills "Good");
    ("comment", VStr "Absent all term.") ].

Definition no_mark_entry : value := VObj no_mark_props.

Definition zero_mark_entry : value :=
  VObj (("percentageMark", VNum (Int 0)) :: no_mark_props).

(** Student and skills only: no teacher, no grade, no ratings, no comment. *)
Definition bare_entry : value :=
  VObj [ ("student", VStr "Ada"); ("skills", VObj []) ].

(** A submission without a course. *)
Definition courseless_entry (comment : string) : value :=
  VObj
    [ ("teacher", VStr "t@school.edu");
      ("student", VStr "Ada");
      ("skills", all_skills "Good");
      ("comment", VStr comment) ].

(** The complete entry filed under another course. *)
Definition other_course_entry : value :=
  VObj (("course", VStr "Science 7B") :: complete_props).

(** A submission with two checks failing beside the missing grade: no
    teacher, and no rating for Initiative. *)
Definition flawed_props : list (string * value) :=
  [ ("student", VStr "Ada");
    ("skills",
      VObj [ ("Responsibility", VStr "Good");
             ("Organization", VStr "Good");
             ("Independent Work", VStr "Good");
             ("Collaboration", VStr "Good");
             ("Self-Regulation", VStr "Good") ]);
    ("comment", VStr "Needs a rating.") ].

(** A comment of [n] characters, and the complete entry with it. *)
Fixpoint comment_of_length (n : nat) : string :=
  match n with
  | O => EmptyString
  | S m => String "a"%char (comment_of_length m)
  end.

Definition entry_with_comment (comment : value) : value :=
  VObj (("comment", comment) :: complete_props).

(** The store after the complete entry was saved into the fresh one. *)
Definition one_entry_world : world :=
  snd (saveGradeEntry complete_entry fresh_world).

(** A store of three entries whose comments have 10, 20 and 30
    characters. *)
Definition student_entry (student : string) (comment_length : nat) : value :=
  VObj
    [ ("teacher", VStr "t@school.edu");
      ("student", VStr student);
      ("course", VStr "Art");
      ("skills", all_skills "Good");
      ("comment", VStr (comment_of_length comment_length)) ].

Definition three_comments_world : world :=
  snd (submit_all
         [ student_entry "Ada" 10; student_entry "Bea" 20; student_entry "Cy" 30 ]
         fresh_world).

(** A store in which the second entry's comment is the number 2024. *)
Definition numeric_comment_world : world :=
  snd (submit_all
         [ student_entry "Ada" 10;
           VObj [ ("student", VStr "Bea");
                  ("course", VStr "Art");
                  ("skills", all_skills "Good");
                  ("comment", VNum (Int 2024)) ] ]
         fresh_world).

(** A tab whose first header cell is a number, with one data row. *)
Definition numeric_header_world : world :=
  {| sheet := Some [ [VNum (Int 2024); VStr "Course"]; [VStr "x"; VStr "Art"] ];
     clock := clock fresh_world;
     reads := 0 |}.

(** The comment of the specification's escaping example: Hello, then
    world in double quotes, then a newline. *)
Definition quoted_comment : string :=
  "Hello, " ++ str1 dquote ++ "world" ++ str1 dquote ++ str1 newline.

End Samples.
Import Samples.

(* ================================================================== *)
(** ** Further vocabulary: requests, filters, counts *)
(* ================================================================== *)

Module Views.

(** The event object of a GET request with the given query parameters. *)
Definition request (params : list (string * value)) : value :=
  VObj [ ("parameter", VObj params) ].

(** A rendering standing for [JSON.stringify] in concrete runs. *)
Definition sample_stringify (r : get_result + error_result) : string :=
  match r with
  | inl (GetEntries (EntriesResult _ entries)) =>
      "entries:" ++ NilZero.string_of_uint (Nat.to_uint (List.length entries))
  | inl (GetMessage message) => message
  | inr _ => "error"
  end.

(** The Teacher Email cell of a row is [teacherEmail]. *)
Definition teacher_is (teacherEmail : value) (r : row) : bool :=
  strict_eq (index r 1) teacherEmail.

(** How many of the values are missing in the sense of [!v]. *)
Definition missing (vs : list value) : nat :=
  List.length (filter (fun v => negb (truthy v)) vs).

(** The checks of [validateData] that a submission with properties [ps]
    fails: teacher, student, grade; the skills object, or else each
    rating; the comment's presence, or else its length. *)
Definition violations (ps : list (string * value)) : nat :=
  (missing [ lookup "teacher" ps; lookup "student" ps; lookup "grade" ps ]
   + (if negb (truthy (lookup "skills" ps))
         || negb (typeof (lookup "skills" ps) =? "object")%string
      then 1
      else missing (map (rating (lookup "skills" ps)) LEARNING_SKILLS))
   + match lookup "comment" ps with
     | VStr s =>
         if (s =? "")%string then 1
         else if (500 <? String.length s)%nat then 1 else 0
     | other => if truthy other then 0 else 1
     end)%nat.

(** An entry whose comment is not an object or array. *)
Definition primitive_comment (entry : value) : bool :=
  match entry with
  | VObj ps =>
      match lookup "comment" ps with
      | VObj _ | VArr _ => false
      | _ => true
      end
  | _ => false
  end.

End Views.
Import Views.

(* ================================================================== *)
(** ** Running the script: equations *)
(* ================================================================== *)

Section RunEquations.

Lemma bind_Ok {A B} (m : run A) (k : A -> run B) w a w' :
  m w = (Ok a, w') -> bind m k w = k a w'.
Proof. intros H. unfold bind. now rewrite H. Qed.

Lemma bind_Throw {A B} (m : run A) (k : A -> run B) w f w' :
  m w = (Throw f, w') -> bind m k w = (Throw f, w').
Proof. intros H. unfold bind. now rewrite H. Qed.

Lemma bind_lift_Ok {A B} (a : A) (k : A -> run B) w :
  bind (lift (Ok a)) k w = k a w.
Proof. reflexivity. Qed.

Lemma getOrCreateSheet_run w :
  getOrCreateSheet w = (Ok tt, with_sheet (header_row w :: data_rows w) w).
Proof.
  unfold getOrCreateSheet, header_row, data_rows, with_sheet.
  destruct w as [[[|h rows]|] clk n]; reflexivity.
Qed.

Lemma getValues_run g w : getValues (with_sheet g w) = (Ok match g with [] => [[VStr ""]] | _ => g end, with_sheet g w)%list.
Proof. destruct g; reflexivity. Qed.

Lemma findStudentRow_run h rows s c w :
  findStudentRow s c (with_sheet (h :: rows) w)
  = (Ok (findStudentRow_loop 1 rows s c), with_sheet (h :: rows) w).
Proof. reflexivity. Qed.

Lemma get_rating skills_obj skill :
  is_nullish skills_obj = false ->
  get skills_obj skill = Ok (rating skills_obj skill).
Proof. unfold rating. destruct skills_obj; simpl; congruence. Qed.

Lemma push_skills_run ps skills rowData w :
  is_nullish (lookup "skills" ps) = false ->
  push_skills (VObj ps) skills rowData w
  = (Ok (rowData
         ++ map (fun skill => or_else (rating (lookup "skills" ps) skill) (VStr ""))
              skills)%list, w).
Proof.
  intros Hsk. revert rowData.
  induction skills as [|skill rest IH]; intros rowData.
  - simpl. now rewrite app_nil_r.
  - simpl. unfold bind, lift. simpl.
    rewrite (get_rating _ skill Hsk), IH, <- app_assoc. reflexivity.
Qed.

Lemma buildRow_run ps w :
  is_nullish (lookup "skills" ps) = false ->
  buildRow (VObj ps) w = (Ok (row_in w ps), advance (stamps_taken ps) w).
Proof.
  intros Hsk.
  unfold buildRow, row_in, timestamp_in, lastModified_in, stamps_taken, cells.
  unfold bind, lift, ret, Date_toISOString. simpl get. cbv beta iota.
  destruct (truthy (lookup "timestamp" ps)) eqn:Ets;
    rewrite push_skills_run by assumption; cbv beta iota;
    unfold advance; rewrite <- !app_assoc; reflexivity.
Qed.

Lemma setValues_app pre r x rest :
  setValues (S (List.length pre)) r (pre ++ x :: rest)%list
  = (pre ++ overwrite r x :: rest)%list.
Proof.
  induction pre as [|a pre IH]; [reflexivity|].
  change (a :: setValues (S (List.length pre)) r (pre ++ x :: rest)
          = a :: pre ++ overwrite r x :: rest)%list.
  now rewrite IH.
Qed.

Lemma findStudentRow_loop_found rows i s c :
  (0 <? findStudentRow_loop i rows s c)%nat = existsb (has_key s c) rows.
Proof.
  revert i. induction rows as [|x rest IH]; intros i; simpl; [reflexivity|].
  fold (has_key s c x). destruct (has_key s c x); simpl.
  - apply Nat.ltb_lt. lia.
  - apply IH.
Qed.

(** Find, then write or append: an upsert of the data rows. *)
Lemma find_then_write rows pre s c r :
  (if (0 <? findStudentRow_loop (List.length pre) rows s c)%nat
   then setValues (findStudentRow_loop (List.length pre) rows s c) r (pre ++ rows)%list
   else appendRow r (pre ++ rows)%list)
  = (pre ++ upsert s c r rows)%list.
Proof.
  revert pre. induction rows as [|x rest IH]; intros pre.
  - simpl. unfold appendRow. now rewrite app_nil_r.
  - simpl. fold (has_key s c x). destruct (has_key s c x).
    + rewrite Nat.add_1_r. simpl Nat.ltb. apply setValues_app.
    + specialize (IH (pre ++ [x])%list).
      rewrite length_app, Nat.add_1_r in IH. simpl in IH.
      rewrite <- app_assoc in IH. simpl in IH.
      rewrite <- app_assoc in IH. exact IH.
Qed.

Lemma saveGradeEntry_run ps w :
  is_nullish (lookup "skills" ps) = false ->
  let s := lookup "student" ps in
  let c := lookup "course" ps in
  saveGradeEntry (VObj ps) w
  = (Ok (SaveResult true
           (if existsb (has_key s c) (data_rows w) then "updated" else "created")
           s c),
     advance (stamps_taken ps)
       (with_sheet (header_row w :: upsert s c (row_in w ps) (data_rows w)) w)).
Proof.
  intros Hsk s c. unfold saveGradeEntry.
  rewrite (bind_Ok _ _ _ _ _ (getOrCreateSheet_run w)).
  simpl get. fold s c. rewrite !bind_lift_Ok.
  rewrite (bind_Ok _ _ _ _ _ (findStudentRow_run _ _ s c w)).
  rewrite (bind_Ok _ _ _ _ _ (buildRow_run ps _ Hsk)).
  pose proof (find_then_write (data_rows w) [header_row w] s c (row_in w ps)) as Hw.
  change (List.length [header_row w]) with 1%nat in Hw.
  rewrite <- (findStudentRow_loop_found (data_rows w) 1 s c).
  change (row_in (with_sheet (header_row w :: data_rows w) w) ps) with (row_in w ps).
  destruct (0 <? findStudentRow_loop 1 (data_rows w) s c)%nat;
    unfold bind, update, lift, ret, advance, with_sheet; simpl;
    fold s c; simpl in Hw; rewrite Hw; reflexivity.
Qed.

Lemma buildRow_throws data w :
  savable data = false ->
  exists f k, buildRow data w = (Throw f, advance k w).
Proof.
  intros Hs. unfold buildRow.
  destruct data as [| |b|n|str|ps|items]; simpl in Hs; try discriminate.
  1-2: eexists; exists 0%nat; destruct w; reflexivity.
  1-3,5: eexists; exists 1%nat; reflexivity.
  apply negb_false_iff in Hs.
  simpl get. unfold bind, lift, ret, Date_toISOString.
  simpl push_skills. unfold bind, lift.
  destruct (lookup "skills" ps); try discriminate;
    destruct (truthy (lookup "timestamp" ps));
    eexists; (exists 0%nat; destruct w; reflexivity) || (exists 1%nat; reflexivity).
Qed.

Lemma buildRow_Ok_inv data w r w' :
  buildRow data w = (Ok r, w') ->
  exists ps,
    data = VObj ps /\ is_nullish (lookup "skills" ps) = false
    /\ r = row_in w ps /\ w' = advance (stamps_taken ps) w.
Proof.
  intros H. destruct (savable data) eqn:E.
  - destruct data as [| | | | |ps|]; try discriminate E.
    simpl in E. apply negb_true_iff in E.
    rewrite (buildRow_run ps w E) in H. injection H as <- <-.
    exists ps. repeat split; assumption.
  - destruct (buildRow_throws data w E) as (f & k & Hf). congruence.
Qed.

Lemma saveGradeEntry_throws data w :
  savable data = false ->
  exists f k,
    saveGradeEntry data w
    = (Throw f, advance k (with_sheet (header_row w :: data_rows w) w)).
Proof.
  intros Hs. unfold saveGradeEntry.
  rewrite (bind_Ok _ _ _ _ _ (getOrCreateSheet_run w)).
  destruct data as [| |b|n|str|ps|items];
    try (eexists; exists 0%nat; reflexivity).
  all: simpl get; rewrite !bind_lift_Ok;
    rewrite (bind_Ok _ _ _ _ _ (findStudentRow_run _ _ _ _ w));
    match goal with
    | |- context [buildRow ?d] =>
        destruct (buildRow_throws d (with_sheet (header_row w :: data_rows w) w) Hs)
          as (f & k & Hf)
    end;
    exists f, k; apply (bind_Throw _ _ _ _ _ Hf).
Qed.

Lemma saveGradeEntry_Ok_savable data w result w' :
  saveGradeEntry data w = (Ok result, w') -> savable data = true.
Proof.
  intros H. destruct (savable data) eqn:E; [reflexivity|].
  destruct (saveGradeEntry_throws data w E) as (f & k & Hf). congruence.
Qed.

End RunEquations.

(* ================================================================== *)
(** ** Properties *)
(* ================================================================== *)

Section RowShape.

Lemma row_in_length w ps : List.length (row_in w ps) = List.length getHeaders.
Proof. reflexivity. Qed.

Lemma overwrite_same_length (r old : row) :
  List.length old = List.length r -> overwrite r old = r.
Proof.
  intros H. unfold overwrite. rewrite <- H, skipn_all. apply app_nil_r.
Qed.

Lemma upsert_cases s c r rows :
  (existsb (has_key s c) rows = false /\ upsert s c r rows = (rows ++ [r])%list)
  \/ (exists pre old post,
        rows = (pre ++ old :: post)%list
        /\ existsb (has_key s c) pre = false
        /\ has_key s c old = true
        /\ upsert s c r rows = (pre ++ overwrite r old :: post)%list).
Proof.
  induction rows as [|x rest IH]; simpl.
  - left. split; reflexivity.
  - destruct (has_key s c x) eqn:E; simpl.
    + right. exists []%list, x, rest. repeat split; assumption.
    + destruct IH as [[Hn Hu]|(pre & old & post & Hr & Hp & Ho & Hu)].
      * left. split; [assumption | now rewrite Hu].
      * right. exists (x :: pre)%list, old, post. simpl.
        rewrite E, Hp, Hu, Hr. repeat split; assumption.
Qed.

Lemma upsert_aligned s c r rows :
  List.length r = List.length getHeaders ->
  aligned rows -> aligned (upsert s c r rows).
Proof.
  intros Hr Ha. unfold aligned in *.
  induction Ha as [|x rest Hx Ha IH]; cbn [upsert].
  - constructor; [assumption | constructor].
  - destruct (has_key s c x).
    + constructor; [|assumption].
      rewrite overwrite_same_length; congruence.
    + constructor; assumption.
Qed.

(** C10.  Every row that saveGradeEntry writes, appended or written over
    an existing row, has one cell per header of getHeaders: 8 fixed
    columns, one per learning skill, Comment and Last Modified, 16 in all;
    so data rows aligned with the schema stay aligned. *)
Theorem saved_row_matches_header :
  List.length getHeaders = (8 + List.length LEARNING_SKILLS + 2)%nat
  /\ List.length getHeaders = 16%nat
  /\ forall data w result w',
       saveGradeEntry data w = (Ok result, w') ->
       exists r,
         List.length r = List.length getHeaders
         /\ (data_rows w' = (data_rows w ++ [r])%list
             \/ exists pre old post,
                  data_rows w = (pre ++ old :: post)%list
                  /\ data_rows w' = (pre ++ overwrite r old :: post)%list)
         /\ (aligned (data_rows w) -> aligned (data_rows w')).
Proof.
  split; [reflexivity|]. split; [reflexivity|].
  intros data w result w' H.
  pose proof (saveGradeEntry_Ok_savable _ _ _ _ H) as Hs.
  destruct data as [| | | | |ps|]; try discriminate Hs.
  simpl in Hs. apply negb_true_iff in Hs.
  rewrite (saveGradeEntry_run ps w Hs) in H.
  injection H as _ Hw. subst w'.
  exists (row_in w ps). split; [apply row_in_length|].
  change (data_rows (advance _ (with_sheet (?h :: ?rows) w))) with rows.
  split.
  - destruct (upsert_cases (lookup "student" ps) (lookup "course" ps)
                (row_in w ps) (data_rows w))
      as [[_ Hu]|(pre & old & post & Hr & _ & _ & Hu)].
    + left. exact Hu.
    + right. exists pre, old, post. split; assumption.
  - apply upsert_aligned, row_in_length.
Qed.

Lemma saved_row_matches_header_witness :
  exists r,
    List.length r = List.length getHeaders
    /\ (data_rows (snd (saveGradeEntry complete_entry fresh_world))
        = (data_rows fresh_world ++ [r])%list
        \/ exists pre old post,
             data_rows fresh_world = (pre ++ old :: post)%list
             /\ data_rows (snd (saveGradeEntry complete_entry fresh_world))
                = (pre ++ overwrite r old :: post)%list)
    /\ (aligned (data_rows fresh_world)
        -> aligned (data_rows (snd (saveGradeEntry complete_entry fresh_world)))).
Proof.
  apply (proj2 (proj2 saved_row_matches_header) complete_entry fresh_world
           (SaveResult true "created" (VStr "Test Student") (VStr "Math 7A"))).
  reflexivity.
Defined.

End RowShape.

Section OptionalNumbers.

(** C5, as stated, fails: a mark recorded as zero and a mark not recorded
    give the same row, the Percentage Mark cell being the empty string in
    both. *)
Lemma zero_mark_stored_as_not_recorded :
  get zero_mark_entry "percentageMark" = Ok (VNum (Int 0))
  /\ get no_mark_entry "percentageMark" = Ok VUndef
  /\ exists r,
       fst (buildRow zero_mark_entry fresh_world) = Ok r
       /\ fst (buildRow no_mark_entry fresh_world) = Ok r
       /\ index r 5 = VStr "".
Proof.
  split; [reflexivity|]. split; [reflexivity|].
  eexists. split; [reflexivity|]. split; reflexivity.
Qed.

(** C5, amended.  The row-building step sends an absent percentageMark,
    classesMissed or timesLate to the empty string, not to zero, and
    stores a recorded number other than zero as that number, which differs
    from the cell of an absent value. *)
Theorem absent_number_is_empty_cell :
  forall data w r w' field col,
    buildRow data w = (Ok r, w') ->
    In (field, col) optional_numeric ->
    (get data field = Ok VUndef -> index r col = VStr "")
    /\ (forall z, z <> 0%Z -> get data field = Ok (VNum (Int z)) ->
        index r col = VNum (Int z) /\ index r col <> VStr "").
Proof.
  intros data w r w' field col H Hin.
  destruct (buildRow_Ok_inv _ _ _ _ H) as (ps & -> & _ & -> & _).
  assert (Hcell : index (row_in w ps) col = or_else (lookup field ps) (VStr "")).
  { simpl in Hin.
    destruct Hin as [E|[E|[E|[]]]]; injection E as <- <-; reflexivity. }
  rewrite Hcell. simpl get. split.
  - intros E. injection E as ->. reflexivity.
  - intros z Hz E. injection E as ->. unfold or_else. simpl.
    destruct (Z.eqb_spec z 0); [contradiction|]. simpl.
    split; [reflexivity | discriminate].
Qed.

Lemma absent_number_is_empty_cell_witness :
  index (row_in fresh_world no_mark_props) 5 = VStr ""
  /\ index (row_in fresh_world complete_props) 5 = VNum (Int 85).
Proof.
  split.
  - apply (absent_number_is_empty_cell no_mark_entry fresh_world _
             (snd (buildRow no_mark_entry fresh_world)) "percentageMark" 5%nat);
      [reflexivity | simpl; left; reflexivity | reflexivity].
  - apply (absent_number_is_empty_cell complete_entry fresh_world _
             (snd (buildRow complete_entry fresh_world)) "percentageMark" 5%nat);
      [reflexivity | simpl; left; reflexivity | lia | reflexivity].
Defined.

End OptionalNumbers.

Section Upsert.

Lemma strict_eq_VStr v s : strict_eq v (VStr s) = true -> v = VStr s.
Proof.
  destruct v as [| | |[|z]|x| |]; simpl; try discriminate.
  intros H. apply String.eqb_eq in H. now subst.
Qed.

Lemma strict_eq_VStr_refl s : strict_eq (VStr s) (VStr s) = true.
Proof. simpl. apply String.eqb_refl. Qed.

Lemma strict_eq_VStr_l s v : strict_eq (VStr s) v = true -> v = VStr s.
Proof.
  destruct v; simpl; try discriminate.
  intros H. apply String.eqb_eq in H. now subst.
Qed.

Lemma strict_eq_VUndef v : strict_eq v VUndef = true -> v = VUndef.
Proof. destruct v as [| | |[|z]| | |]; simpl; try discriminate. reflexivity. Qed.

Lemma upsert_absent s c r rows :
  existsb (has_key s c) rows = false -> upsert s c r rows = (rows ++ [r])%list.
Proof.
  induction rows as [|x rest IH]; simpl; [reflexivity|].
  destruct (has_key s c x); simpl; [discriminate|].
  intros H. now rewrite IH.
Qed.

Lemma no_undefined_course_no_match s rows :
  Forall (fun r => index r courseCol <> VUndef) rows ->
  existsb (has_key s VUndef) rows = false.
Proof.
  induction 1 as [|x rest Hx _ IH]; simpl; [reflexivity|].
  rewrite IH, orb_false_r. unfold has_key.
  destruct (strict_eq (index x courseCol) VUndef) eqn:E.
  - apply strict_eq_VUndef in E. contradiction.
  - apply andb_false_r.
Qed.

(** The cells of a built row that make its key. *)
Lemma row_in_student w ps : index (row_in w ps) studentCol = lookup "student" ps.
Proof. reflexivity. Qed.

Lemma row_in_course w ps :
  index (row_in w ps) courseCol = or_else (lookup "course" ps) (VStr "").
Proof. reflexivity. Qed.

(** C9.  When the course field is absent, saveGradeEntry writes the empty
    string into the Course cell but looks the row up under the absent
    value, which no stored Course cell equals; so the submission is
    reported as created and appended, and two successive submissions for
    one student leave two data rows for that student. *)
Theorem absent_course_always_appends :
  forall w ps1 ps2 student,
    Forall (fun r => index r courseCol <> VUndef) (data_rows w) ->
    lookup "course" ps1 = VUndef -> lookup "student" ps1 = student ->
    lookup "course" ps2 = VUndef -> lookup "student" ps2 = student ->
    is_nullish (lookup "skills" ps1) = false ->
    is_nullish (lookup "skills" ps2) = false ->
    exists r1 r2 w1 w2,
      saveGradeEntry (VObj ps1) w
      = (Ok (SaveResult true "created" student VUndef), w1)
      /\ data_rows w1 = (data_rows w ++ [r1])%list
      /\ fst (findStudentRow student VUndef w1) = Ok 0%nat
      /\ saveGradeEntry (VObj ps2) w1
         = (Ok (SaveResult true "created" student VUndef), w2)
      /\ data_rows w2 = (data_rows w ++ [r1; r2])%list
      /\ index r1 courseCol = VStr "" /\ index r1 studentCol = student
      /\ index r2 courseCol = VStr "" /\ index r2 studentCol = student.
Proof.
  intros w ps1 ps2 student Hrows Hc1 Hs1 Hc2 Hs2 Hk1 Hk2.
  pose proof (saveGradeEntry_run ps1 w Hk1) as H1. cbv zeta in H1.
  rewrite Hc1, Hs1 in H1.
  rewrite (no_undefined_course_no_match student _ Hrows) in H1.
  rewrite (upsert_absent _ _ _ _ (no_undefined_course_no_match student _ Hrows)) in H1.
  set (r1 := row_in w ps1) in *.
  set (w1 := advance (stamps_taken ps1)
               (with_sheet (header_row w :: data_rows w ++ [r1]) w)) in *.
  assert (Hrows1 : Forall (fun r => index r courseCol <> VUndef) (data_rows w1)).
  { change (data_rows w1) with (data_rows w ++ [r1])%list.
    apply Forall_app. split; [assumption|].
    constructor; [|constructor].
    unfold r1. rewrite row_in_course, Hc1. discriminate. }
  pose proof (saveGradeEntry_run ps2 w1 Hk2) as H2. cbv zeta in H2.
  rewrite Hc2, Hs2 in H2.
  rewrite (no_undefined_course_no_match student _ Hrows1) in H2.
  rewrite (upsert_absent _ _ _ _ (no_undefined_course_no_match student _ Hrows1)) in H2.
  exists r1, (row_in w1 ps2), w1.
  eexists.
  split; [exact H1|]. split; [reflexivity|].
  split.
  { change (fst (findStudentRow student VUndef w1))
      with (Ok (findStudentRow_loop 1 (data_rows w1) student VUndef)).
    f_equal.
    pose proof (findStudentRow_loop_found (data_rows w1) 1 student VUndef) as Hf.
    rewrite (no_undefined_course_no_match student _ Hrows1) in Hf.
    apply Nat.ltb_ge in Hf. lia. }
  split; [exact H2|].
  split.
  { change (data_rows (advance _ (with_sheet (?h :: ?rows) w1))) with rows.
    change (data_rows w1) with (data_rows w ++ [r1])%list.
    now rewrite <- app_assoc. }
  unfold r1. rewrite !row_in_course, !row_in_student, Hc1, Hc2, Hs1, Hs2.
  repeat split; reflexivity.
Qed.

Lemma absent_course_always_appends_witness :
  exists r1 r2 w1 w2,
    saveGradeEntry (courseless_entry "First report.") fresh_world
    = (Ok (SaveResult true "created" (VStr "Ada") VUndef), w1)
    /\ data_rows w1 = (data_rows fresh_world ++ [r1])%list
    /\ fst (findStudentRow (VStr "Ada") VUndef w1) = Ok 0%nat
    /\ saveGradeEntry (courseless_entry "Second report.") w1
       = (Ok (SaveResult true "created" (VStr "Ada") VUndef), w2)
    /\ data_rows w2 = (data_rows fresh_world ++ [r1; r2])%list
    /\ index r1 courseCol = VStr "" /\ index r1 studentCol = VStr "Ada"
    /\ index r2 courseCol = VStr "" /\ index r2 studentCol = VStr "Ada".
Proof.
  apply (absent_course_always_appends fresh_world); try reflexivity.
  constructor.
Defined.

Lemma existsb_false_filter {A} (p : A -> bool) l :
  existsb p l = false -> filter p l = []%list.
Proof.
  induction l as [|x rest IH]; simpl; [reflexivity|].
  destruct (p x); simpl; [discriminate | exact IH].
Qed.

Lemma rows_of_upsert S C r rows :
  has_key S C r = true ->
  List.length r = List.length getHeaders -> aligned rows ->
  (List.length (rows_of S C rows) <= 1)%nat ->
  rows_of S C (upsert S C r rows) = [r]%list.
Proof.
  intros Hr Hlen Ha. unfold rows_of.
  induction Ha as [|x rest Hx Ha IH]; cbn [upsert filter]; intros Hcount.
  - now rewrite Hr.
  - destruct (has_key S C x) eqn:E.
    + rewrite overwrite_same_length by congruence.
      cbn [filter]. rewrite Hr. f_equal.
      cbn [List.length] in Hcount.
      destruct (filter (has_key S C) rest); [reflexivity | simpl in Hcount; lia].
    + cbn [filter]. rewrite E. apply IH, Hcount.
Qed.

Lemma rows_beside_upsert S C r rows :
  has_key S C r = true ->
  List.length r = List.length getHeaders -> aligned rows ->
  rows_beside S C (upsert S C r rows) = rows_beside S C rows.
Proof.
  intros Hr Hlen Ha. unfold rows_beside.
  induction Ha as [|x rest Hx Ha IH]; cbn [upsert filter].
  - now rewrite Hr.
  - destruct (has_key S C x) eqn:E.
    + rewrite overwrite_same_length by congruence.
      cbn [filter]. now rewrite Hr.
    + cbn [filter]. rewrite E. cbn [negb]. now rewrite IH.
Qed.

Lemma keyed_upsert s c r rows :
  index r studentCol = VStr s -> index r courseCol = VStr c ->
  List.length r = List.length getHeaders -> aligned rows ->
  keyed rows -> keyed (upsert (VStr s) (VStr c) r rows).
Proof.
  intros Hs Hc Hlen Ha Hk S' C'.
  destruct (upsert_cases (VStr s) (VStr c) r rows)
    as [[Hn ->]|(pre & old & post & -> & _ & Ho & ->)].
  - rewrite filter_app, length_app. cbn [filter].
    destruct (has_key S' C' r) eqn:E.
    + unfold has_key in E. rewrite Hs, Hc in E.
      apply andb_prop in E as [E1 E2].
      apply strict_eq_VStr_l in E1, E2. subst S' C'.
      rewrite (existsb_false_filter _ _ Hn). simpl. lia.
    + specialize (Hk S' C'). simpl. lia.
  - assert (Hold : List.length old = List.length getHeaders).
    { unfold aligned in Ha. rewrite Forall_forall in Ha.
      apply Ha, in_elt. }
    rewrite overwrite_same_length by congruence.
    assert (Hsame : has_key S' C' r = has_key S' C' old).
    { unfold has_key in *.
      apply andb_prop in Ho as [O1 O2].
      apply strict_eq_VStr in O1, O2.
      now rewrite Hs, Hc, O1, O2. }
    specialize (Hk S' C').
    rewrite filter_app, length_app in *. cbn [filter] in *.
    rewrite Hsame. destruct (has_key S' C' old); exact Hk.
Qed.

Lemma carries_inv s c data :
  carries s c data = true ->
  exists ps,
    data = VObj ps /\ lookup "student" ps = VStr s
    /\ lookup "course" ps = VStr c
    /\ is_nullish (lookup "skills" ps) = false.
Proof.
  destruct data as [| | | | |ps|]; simpl; try discriminate.
  intros H. apply andb_prop in H as [H H3]. apply andb_prop in H as [H1 H2].
  exists ps. repeat split.
  - now apply strict_eq_VStr.
  - now apply strict_eq_VStr.
  - now apply negb_true_iff.
Qed.

Lemma or_string_default c : or_else (VStr c) (VStr "") = VStr c.
Proof.
  unfold or_else. simpl. destruct (String.eqb_spec c ""); simpl; congruence.
Qed.

(** One submission carrying the key, on a keyed and aligned store. *)
Lemma save_keyed_step s c data w :
  carries s c data = true ->
  keyed (data_rows w) -> aligned (data_rows w) ->
  exists ps result w1,
    data = VObj ps
    /\ saveGradeEntry data w = (Ok result, w1)
    /\ rows_of (VStr s) (VStr c) (data_rows w1) = [row_in w ps]%list
    /\ rows_beside (VStr s) (VStr c) (data_rows w1)
       = rows_beside (VStr s) (VStr c) (data_rows w)
    /\ keyed (data_rows w1) /\ aligned (data_rows w1)
    /\ lastModified_in w ps = VStr (clock w1 (pred (reads w1)))
    /\ timestamp_in w ps
       = (if truthy (lookup "timestamp" ps) then lookup "timestamp" ps
          else VStr (clock w1 (pred (pred (reads w1))))).
Proof.
  intros Hc Hk Ha.
  destruct (carries_inv _ _ _ Hc) as (ps & -> & Hs & Hco & Hsk).
  pose proof (saveGradeEntry_run ps w Hsk) as H. cbv zeta in H.
  rewrite Hs, Hco in H.
  assert (Hstu : index (row_in w ps) studentCol = VStr s)
    by now rewrite row_in_student.
  assert (Hcou : index (row_in w ps) courseCol = VStr c)
    by now rewrite row_in_course, Hco, or_string_default.
  assert (Hkey : has_key (VStr s) (VStr c) (row_in w ps) = true).
  { unfold has_key. now rewrite Hstu, Hcou, !strict_eq_VStr_refl. }
  eexists ps, _, _. split; [reflexivity|]. split; [exact H|].
  change (data_rows (advance _ (with_sheet (?h :: ?rows) w))) with rows.
  split; [apply rows_of_upsert; auto using row_in_length; apply Hk|].
  split; [apply rows_beside_upsert; auto using row_in_length|].
  split; [apply keyed_upsert; auto using row_in_length|].
  split; [apply upsert_aligned; auto using row_in_length|].
  unfold lastModified_in, timestamp_in, stamps_taken.
  destruct (truthy (lookup "timestamp" ps)); split; reflexivity.
Qed.

(** C1.  On a store whose data rows are keyed by (student, course) and
    aligned with the schema, after N submissions carrying the same
    (student, course) pair exactly one data row carries that pair, and it
    is the row built from the last submission, every column written anew:
    its Timestamp is the submitted timestamp, or the clock reading taken
    for it when none is submitted, and its Last Modified is the latest
    clock reading; nothing of an earlier submission or of the row that was
    there remains.  The other rows are untouched and the store stays keyed
    and aligned. *)
Theorem same_key_submissions_leave_one_row :
  forall s c earlier last w,
    keyed (data_rows w) -> aligned (data_rows w) ->
    forallb (carries s c) (earlier ++ [last])%list = true ->
    exists results w' ps,
      submit_all (earlier ++ [last])%list w = (Ok results, w')
      /\ List.length results = S (List.length earlier)
      /\ last = VObj ps
      /\ rows_of (VStr s) (VStr c) (data_rows w')
         = [cells ps
              (if truthy (lookup "timestamp" ps) then lookup "timestamp" ps
               else VStr (clock w' (pred (pred (reads w')))))
              (VStr (clock w' (pred (reads w'))))]%list
      /\ rows_beside (VStr s) (VStr c) (data_rows w')
         = rows_beside (VStr s) (VStr c) (data_rows w)
      /\ keyed (data_rows w') /\ aligned (data_rows w').
Proof.
  intros s c earlier last.
  induction earlier as [|d rest IH]; intros w Hk Ha Hall.
  - simpl in Hall. rewrite andb_true_r in Hall.
    destruct (save_keyed_step s c last w Hall Hk Ha)
      as (ps & result & w1 & -> & Hrun & Hof & Hbeside & Hk1 & Ha1 & Hlm & Hts).
    exists [result]%list, w1, ps.
    split.
    { cbn [app submit_all]. rewrite (bind_Ok _ _ _ _ _ Hrun). reflexivity. }
    split; [reflexivity|]. split; [reflexivity|].
    split; [|repeat split; assumption].
    rewrite Hof. unfold row_in. now rewrite Hlm, Hts.
  - cbn [app forallb] in Hall. apply andb_prop in Hall as [Hd Hall].
    destruct (save_keyed_step s c d w Hd Hk Ha)
      as (psd & result & w1 & _ & Hrun & _ & Hbeside & Hk1 & Ha1 & _).
    destruct (IH w1 Hk1 Ha1 Hall)
      as (results & w' & ps & Hruns & Hlen & Hlast & Hof
          & Hbeside' & Hk' & Ha').
    exists (result :: results)%list, w', ps.
    split.
    { cbn [app submit_all]. rewrite (bind_Ok _ _ _ _ _ Hrun).
      rewrite (bind_Ok _ _ _ _ _ Hruns). reflexivity. }
    repeat split; try assumption.
    + simpl. now rewrite Hlen.
    + now rewrite Hbeside'.
Qed.

(** The complete entry is saved, then revised: the one row left is the
    revised entry's, stamped with the third and fourth clock readings. *)
Lemma same_key_submissions_leave_one_row_witness :
  exists results w' ps,
    submit_all ([complete_entry] ++ [revised_entry])%list fresh_world
    = (Ok results, w')
    /\ List.length results = 2%nat
    /\ revised_entry = VObj ps
    /\ rows_of (VStr "Test Student") (VStr "Math 7A") (data_rows w')
       = [cells ps
            (if truthy (lookup "timestamp" ps) then lookup "timestamp" ps
             else VStr (clock w' (pred (pred (reads w')))))
            (VStr (clock w' (pred (reads w'))))]%list
    /\ rows_beside (VStr "Test Student") (VStr "Math 7A") (data_rows w')
       = rows_beside (VStr "Test Student") (VStr "Math 7A")
           (data_rows fresh_world)
    /\ keyed (data_rows w') /\ aligned (data_rows w').
Proof.
  apply (same_key_submissions_leave_one_row "Test Student" "Math 7A"
           [complete_entry]%list revised_entry fresh_world).
  - intros S' C'. simpl. lia.
  - constructor.
  - reflexivity.
Defined.

(** The run of the two submissions, evaluated: one data row, every cell
    from the revised entry, Timestamp T2 and Last Modified T3. *)
Example same_key_submissions_run :
  data_rows (snd (submit_all [complete_entry; revised_entry] fresh_world))
  = [ [ VStr "T2"; VStr "teacher1@school.edu"; VStr "Ms. Johnson";
        VStr "Math 7A"; VStr "Test Student"; VNum (Int 91); VStr ""; VStr "";
        VStr "Excellent"; VStr "Excellent"; VStr "Excellent";
        VStr "Excellent"; VStr "Excellent"; VStr "Excellent";
        VStr "Much improved."; VStr "T3" ] ]%list.
Proof. vm_compute. reflexivity. Qed.

End Upsert.

Section Validation.

Lemma comment_errors_app xs ys :
  comment_errors (xs ++ ys) = (comment_errors xs ++ comment_errors ys)%list.
Proof. apply filter_app. Qed.

Lemma skill_messages_not_about_comment :
  Forall (fun skill => is_comment_error (skill ++ " rating is required") = false)
    LEARNING_SKILLS.
Proof. repeat constructor. Qed.

Lemma validate_skills_run ps skills errors :
  is_nullish (lookup "skills" ps) = false ->
  Forall (fun skill => is_comment_error (skill ++ " rating is required") = false)
    skills ->
  exists extra,
    validate_skills (VObj ps) skills errors = Ok (errors ++ extra)%list
    /\ comment_errors extra = []%list
    /\ (extra = []%list ->
        Forall (fun skill => truthy (rating (lookup "skills" ps) skill) = true)
          skills).
Proof.
  intros Hsk Hall. revert errors.
  induction Hall as [|skill rest Hmsg _ IH]; intros errors.
  - exists []%list. rewrite app_nil_r. repeat split. constructor.
  - cbn [validate_skills]. simpl get. cbn [obind].
    rewrite (get_rating _ skill Hsk). cbn [obind].
    destruct (truthy (rating (lookup "skills" ps) skill)) eqn:Et; cbn [negb].
    + destruct (IH errors) as (extra & -> & Hce & Hall').
      exists extra. repeat split; [assumption|].
      intros E. constructor; [assumption | auto].
    + destruct (IH (errors ++ [(skill ++ " rating is required")%string])%list)
        as (extra & -> & Hce & _).
      exists ((skill ++ " rating is required")%string :: extra)%list.
      rewrite <- app_assoc. repeat split.
      * change (comment_errors (?m :: extra))
          with (if is_comment_error m then m :: comment_errors extra
                else comment_errors extra)%list.
        now rewrite Hmsg.
      * discriminate.
Qed.

(** validateData on an object: the checks before the comment yield no
    comment message, and the comment check comes last.  When those checks
    yield no message at all, the skills can be indexed and every learning
    skill has a rating. *)
Lemma validateData_object ps :
  exists pre,
    comment_errors pre = []%list
    /\ (pre = []%list ->
        is_nullish (lookup "skills" ps) = false
        /\ Forall (fun skill => truthy (rating (lookup "skills" ps) skill) = true)
             LEARNING_SKILLS)
    /\ validateData (VObj ps)
       = (if negb (truthy (lookup "comment" ps))
          then Ok (pre ++ [comment_required])%list
          else
            len <~ get (lookup "comment" ps) "length" ;;
            too_long <~ gt len 500 ;;
            Ok (if too_long then (pre ++ [comment_too_long])%list else pre)).
Proof.
  unfold validateData. simpl get. cbn [obind].
  set (e3 := (if negb (truthy (lookup "grade" ps)) then _ else _)).
  assert (He3 : comment_errors e3 = []%list).
  { unfold e3.
    destruct (negb (truthy (lookup "teacher" ps)));
      destruct (negb (truthy (lookup "student" ps)));
      destruct (negb (truthy (lookup "grade" ps))); reflexivity. }
  destruct (negb (truthy (lookup "skills" ps))
            || negb (typeof (lookup "skills" ps) =? "object")) eqn:E.
  - cbn [obind]. eexists. split; [|split; [|reflexivity]].
    + rewrite comment_errors_app, He3. reflexivity.
    + intros Hnil. apply app_eq_nil in Hnil as [_ Hnil]. discriminate.
  - apply orb_false_elim in E as [E _]. apply negb_false_iff in E.
    assert (Hsk : is_nullish (lookup "skills" ps) = false)
      by (destruct (lookup "skills" ps); try discriminate; reflexivity).
    destruct (validate_skills_run ps LEARNING_SKILLS e3 Hsk
                skill_messages_not_about_comment) as (extra & -> & Hce & Hall).
    cbn [obind]. exists (e3 ++ extra)%list. split; [|split; [|reflexivity]].
    + rewrite comment_errors_app, He3, Hce. reflexivity.
    + intros Hnil. apply app_eq_nil in Hnil as [_ Hnil]. auto.
Qed.

Lemma validateData_valid ps :
  validateData (VObj ps) = Ok []%list ->
  is_nullish (lookup "skills" ps) = false
  /\ Forall (fun skill => truthy (rating (lookup "skills" ps) skill) = true)
       LEARNING_SKILLS.
Proof.
  intros H.
  destruct (validateData_object ps) as (pre & _ & Hpre & Heq).
  rewrite Heq in H. apply Hpre.
  destruct (negb (truthy (lookup "comment" ps))).
  - injection H as H. now apply app_eq_nil in H as [H _].
  - destruct (get (lookup "comment" ps) "length") as [len| |];
      try discriminate H. cbn [obind] in H.
    destruct (gt len 500) as [[|]| |]; try discriminate H; injection H as H.
    + now apply app_eq_nil in H as [H _].
    + exact H.
Qed.

Lemma gt_length s :
  (len <~ get (VStr s) "length" ;; gt len 500)
  = Ok (500 <? String.length s)%nat.
Proof.
  simpl. unfold gt. simpl. f_equal.
  destruct (Nat.ltb_spec 500 (String.length s)).
  - apply Z.ltb_lt. lia.
  - apply Z.ltb_ge. lia.
Qed.

(** C8.  validateData yields at most one message about the comment.  An
    absent or empty comment yields the presence message and the length is
    not looked at; a comment of at most 500 characters (so one of exactly
    500) yields no comment message, a longer one (so one of 501) the
    length message. *)
Theorem comment_checked_once :
  forall data,
    (forall errs, validateData data = Ok errs ->
       (List.length (comment_errors errs) <= 1)%nat)
    /\ (forall ps, data = VObj ps ->
        (truthy (lookup "comment" ps) = false ->
         exists errs, validateData data = Ok errs
                      /\ comment_errors errs = [comment_required]%list)
        /\ (forall s, lookup "comment" ps = VStr s -> s <> "" ->
            (String.length s <= 500)%nat ->
            exists errs, validateData data = Ok errs
                         /\ comment_errors errs = []%list)
        /\ (forall s, lookup "comment" ps = VStr s ->
            (500 < String.length s)%nat ->
            exists errs, validateData data = Ok errs
                         /\ comment_errors errs = [comment_too_long]%list)).
Proof.
  intros data. split.
  - intros errs H.
    destruct data as [| |b|n|str|ps|items]; try discriminate H;
      try (injection H as <-; simpl; lia).
    destruct (validateData_object ps) as (pre & Hpre & _ & Heq).
    rewrite Heq in H.
    destruct (negb (truthy (lookup "comment" ps))).
    + injection H as <-. rewrite comment_errors_app, Hpre. simpl. lia.
    + destruct (get (lookup "comment" ps) "length") as [len| |];
        try discriminate H. cbn [obind] in H.
      destruct (gt len 500) as [[|]| |]; try discriminate H;
        injection H as <-.
      * rewrite comment_errors_app, Hpre. simpl. lia.
      * rewrite Hpre. simpl. lia.
  - intros ps ->.
    destruct (validateData_object ps) as (pre & Hpre & _ & Heq).
    rewrite Heq. split; [|split].
    + intros ->. eexists. split; [reflexivity|].
      rewrite comment_errors_app, Hpre. reflexivity.
    + intros s Hc Hne Hlen. rewrite Hc.
      assert (Ht : truthy (VStr s) = true).
      { simpl. destruct (String.eqb_spec s ""); [contradiction | reflexivity]. }
      rewrite Ht. cbn [negb].
      pose proof (gt_length s) as Hgt.
      destruct (get (VStr s) "length") as [len| |]; try discriminate Hgt.
      cbn [obind] in *. rewrite Hgt. cbn [obind].
      assert (E : (500 <? String.length s)%nat = false) by (apply Nat.ltb_ge; lia).
      rewrite E. exists pre. split; [reflexivity | exact Hpre].
    + intros s Hc Hlen. rewrite Hc.
      assert (Ht : truthy (VStr s) = true).
      { simpl. destruct s; [simpl in Hlen; lia | reflexivity]. }
      rewrite Ht. cbn [negb].
      pose proof (gt_length s) as Hgt.
      destruct (get (VStr s) "length") as [len| |]; try discriminate Hgt.
      cbn [obind] in *. rewrite Hgt. cbn [obind].
      assert (E : (500 <? String.length s)%nat = true) by (apply Nat.ltb_lt; lia).
      rewrite E. eexists. split; [reflexivity|].
      rewrite comment_errors_app, Hpre. reflexivity.
Qed.

Lemma comment_checked_once_witness :
  (exists errs,
     validateData (entry_with_comment VUndef) = Ok errs
     /\ comment_errors errs = [comment_required]%list)
  /\ (exists errs,
        validateData (entry_with_comment (VStr (comment_of_length 500))) = Ok errs
        /\ comment_errors errs = []%list)
  /\ (exists errs,
        validateData (entry_with_comment (VStr (comment_of_length 501))) = Ok errs
        /\ comment_errors errs = [comment_too_long]%list).
Proof.
  split; [|split].
  - apply (proj1 (proj2 (comment_checked_once (entry_with_comment VUndef))
                      _ eq_refl)).
    reflexivity.
  - apply (proj1 (proj2 (proj2 (comment_checked_once
                    (entry_with_comment (VStr (comment_of_length 500))))
                    _ eq_refl))
             (comment_of_length 500)).
    + reflexivity.
    + discriminate.
    + apply Nat.leb_le. vm_compute. reflexivity.
  - apply (proj2 (proj2 (proj2 (comment_checked_once
                    (entry_with_comment (VStr (comment_of_length 501))))
                    _ eq_refl))
             (comment_of_length 501)).
    + reflexivity.
    + apply Nat.ltb_lt. vm_compute. reflexivity.
Defined.

End Validation.

Section Reading.

Lemma rowToObject_fresh_header r :
  rowToObject fresh_header r = Ok (VObj (entry_of_row r)).
Proof. reflexivity. Qed.

Lemma map_rowToObject_fresh_header rows :
  map_outcome (fun r => rowToObject fresh_header r) rows
  = Ok (map (fun r => VObj (entry_of_row r)) rows).
Proof.
  induction rows as [|r rest IH]; [reflexivity|].
  cbn [map_outcome map]. rewrite rowToObject_fresh_header, IH. reflexivity.
Qed.

Lemma getAllEntries_run w :
  header_row w = fresh_header ->
  getAllEntries w
  = (Ok (EntriesResult true (map (fun r => VObj (entry_of_row r)) (data_rows w))),
     with_sheet (header_row w :: data_rows w) w).
Proof.
  intros Hh. unfold getAllEntries.
  rewrite (bind_Ok _ _ _ _ _ (getOrCreateSheet_run w)).
  rewrite (bind_Ok _ _ _ _ _ (getValues_run _ w)).
  destruct (data_rows w) as [|r rest] eqn:E; [reflexivity|].
  cbn [List.length Nat.leb nth skipn]. rewrite Hh.
  unfold bind, lift, ret. rewrite map_rowToObject_fresh_header. reflexivity.
Qed.

Lemma filter_student_none s rows :
  filter_outcome
    (fun entry => v <~ get entry "student" ;; Ok (strict_eq v (VStr s)))
    (map (fun r => VObj (entry_of_row r)) rows)
  = Ok []%list.
Proof.
  induction rows as [|r rest IH]; [reflexivity|].
  cbn [map filter_outcome]. rewrite IH. reflexivity.
Qed.

(** Under the header row this script writes, the student filter returns
    no entry, whatever name is asked for and whatever the rows hold. *)
Lemma getEntriesByStudent_always_empty w s :
  header_row w = fresh_header ->
  fst (getEntriesByStudent (VStr s) w) = Ok (EntriesResult true []).
Proof.
  intros Hh. unfold getEntriesByStudent.
  rewrite (bind_Ok _ _ _ _ _ (getAllEntries_run w Hh)).
  cbn [entries_of]. unfold bind, lift, ret.
  rewrite filter_student_none. reflexivity.
Qed.

(** C3, at a failing input.  The store holds one row, whose Student Name
    cell is the name asked for; getAllEntries lists its entry, with the
    name under the key student_name; getEntriesByStudent, which compares
    the key student, returns no entry, while getEntriesByTeacher, which
    compares the header-derived key teacher_email, returns it. *)
Theorem getEntriesByStudent_misses_stored_student :
  map (fun r => index r studentCol) (data_rows one_entry_world)
  = [VStr "Test Student"]%list
  /\ (exists entry,
        fst (getAllEntries one_entry_world) = Ok (EntriesResult true [entry])
        /\ get entry "student_name" = Ok (VStr "Test Student")
        /\ get entry "student" = Ok VUndef
        /\ fst (getEntriesByTeacher (VStr "teacher1@school.edu") one_entry_world)
           = Ok (EntriesResult true [entry]))
  /\ fst (getEntriesByStudent (VStr "Test Student") one_entry_world)
     = Ok (EntriesResult true []).
Proof.
  split; [vm_compute; reflexivity|]. split; [|vm_compute; reflexivity].
  let v := eval vm_compute in (fst (getAllEntries one_entry_world)) in
  match v with
  | Ok (EntriesResult _ [?entry]%list) => exists entry
  end.
  repeat split; vm_compute; reflexivity.
Qed.

End Reading.

Section RoundTrip.

(** C4, as stated, fails: for an entry that passes validateData, the
    entry read back has no field named student or teacher; the values are
    under student_name and teacher_email. *)
Lemma round_trip_renames_fields :
  validateData complete_entry = Ok []%list
  /\ exists r entry,
       fst (buildRow complete_entry fresh_world) = Ok r
       /\ rowToObject fresh_header r = Ok entry
       /\ get complete_entry "student" = Ok (VStr "Test Student")
       /\ get entry "student" = Ok VUndef
       /\ get entry "student_name" = Ok (VStr "Test Student")
       /\ get complete_entry "teacher" = Ok (VStr "teacher1@school.edu")
       /\ get entry "teacher" = Ok VUndef
       /\ get entry "teacher_email" = Ok (VStr "teacher1@school.edu").
Proof.
  split; [vm_compute; reflexivity|].
  exists (row_in fresh_world complete_props),
         (VObj (entry_of_row (row_in fresh_world complete_props))).
  repeat split; vm_compute; reflexivity.
Qed.

Lemma validateData_without_grade ps :
  truthy (lookup "grade" ps) = false ->
  exists pre,
    pre <> []%list
    /\ validateData (VObj ps)
       = (if negb (truthy (lookup "comment" ps))
          then Ok (pre ++ [comment_required])%list
          else
            len <~ get (lookup "comment" ps) "length" ;;
            too_long <~ gt len 500 ;;
            Ok (if too_long then (pre ++ [comment_too_long])%list else pre)).
Proof.
  intros Hgrade.
  unfold validateData. simpl get. cbn [obind].
  set (e3 := (if negb (truthy (lookup "grade" ps)) then _ else _)).
  assert (He3 : forall extra, (e3 ++ extra)%list <> []%list).
  { intros extra E. apply app_eq_nil in E as [E _]. revert E.
    unfold e3. rewrite Hgrade. cbn [negb].
    intros E. apply app_eq_nil in E as [_ E]. discriminate E. }
  destruct (negb (truthy (lookup "skills" ps))
            || negb (typeof (lookup "skills" ps) =? "object")) eqn:E.
  - cbn [obind]. eexists. split; [apply He3 | reflexivity].
  - apply orb_false_elim in E as [E _]. apply negb_false_iff in E.
    assert (Hsk : is_nullish (lookup "skills" ps) = false)
      by (destruct (lookup "skills" ps); try discriminate; reflexivity).
    destruct (validate_skills_run ps LEARNING_SKILLS e3 Hsk
                skill_messages_not_about_comment) as (extra & -> & _).
    cbn [obind]. eexists. split; [apply He3 | reflexivity].
Qed.

Lemma validateData_valid_grade ps :
  validateData (VObj ps) = Ok []%list -> truthy (lookup "grade" ps) = true.
Proof.
  intros H. destruct (truthy (lookup "grade" ps)) eqn:Hg; [reflexivity|].
  exfalso.
  destruct (validateData_without_grade ps Hg) as (pre & Hpre & Heq).
  rewrite Heq in H.
  destruct (negb (truthy (lookup "comment" ps))).
  - injection H as H. apply app_eq_nil in H as [H _]. contradiction.
  - destruct (get (lookup "comment" ps) "length") as [len| |];
      try discriminate H. cbn [obind] in H.
    destruct (gt len 500) as [[|]| |]; try discriminate H; injection H as H.
    + apply app_eq_nil in H as [H _]. contradiction.
    + contradiction.
Qed.

(** C4, amended.  For every entry that passes validateData, building its
    row and reading the row back through rowToObject under the header row
    of getHeaders reproduces the values of teacher, teacherName, student
    and comment under the keys teacher_email, teacher_name, student_name
    and comment; the value of course, percentageMark, classesMissed and
    timesLate under course, percentage_mark, classes_missed and times_late
    when the field holds a string or a value that is not falsy, and as the
    empty string when the field is absent; and the rating of every
    learning skill under the same name in the nested skills object.  A
    timestamp that is supplied comes back unchanged under timestamp, one
    that is not comes back as the clock reading taken for it;
    last_modified is the clock reading taken last, whatever the entry
    holds; and grade, which the entry has, is not stored and does not come
    back. *)
Theorem round_trip_under_header_keys :
  forall ps w,
    validateData (VObj ps) = Ok []%list ->
    exists r w' entry,
      buildRow (VObj ps) w = (Ok r, w')
      /\ rowToObject fresh_header r = Ok (VObj entry)
      /\ (forall field key, In (field, key) stored_as_is ->
          lookup key entry = lookup field ps)
      /\ (forall field key, In (field, key) stored_or_empty ->
          (truthy (lookup field ps) = true -> lookup key entry = lookup field ps)
          /\ (forall text, lookup field ps = VStr text ->
              lookup key entry = VStr text)
          /\ (lookup field ps = VUndef -> lookup key entry = VStr ""))
      /\ (forall skill, In skill LEARNING_SKILLS ->
          get (lookup "skills" entry) skill = get (lookup "skills" ps) skill)
      /\ lookup "timestamp" entry
         = (if truthy (lookup "timestamp" ps) then lookup "timestamp" ps
            else VStr (clock w (reads w)))
      /\ lookup "last_modified" entry = VStr (clock w' (pred (reads w')))
      /\ reads w < reads w'
      /\ truthy (lookup "grade" ps) = true
      /\ lookup "grade" entry = VUndef.
Proof.
  intros ps w Hvalid.
  destruct (validateData_valid ps Hvalid) as [Hsk Hratings].
  exists (row_in w ps), (advance (stamps_taken ps) w), (entry_of_row (row_in w ps)).
  split; [now apply buildRow_run|].
  split; [apply rowToObject_fresh_header|].
  split; [|split; [|split]].
  - intros field key Hin. simpl in Hin.
    destruct Hin as [E|[E|[E|[E|[]]]]]; injection E as <- <-; reflexivity.
  - intros field key Hin.
    assert (Hcell : lookup key (entry_of_row (row_in w ps))
                    = or_else (lookup field ps) (VStr "")).
    { simpl in Hin.
      destruct Hin as [E|[E|[E|[E|[]]]]]; injection E as <- <-; reflexivity. }
    rewrite Hcell. split; [|split].
    + intros Ht. unfold or_else. now rewrite Ht.
    + intros text ->. apply or_string_default.
    + intros ->. reflexivity.
  - intros skill Hin.
    rewrite (get_rating _ skill Hsk).
    rewrite Forall_forall in Hratings. specialize (Hratings skill Hin).
    assert (Hcell : get (lookup "skills" (entry_of_row (row_in w ps))) skill
                    = Ok (or_else (rating (lookup "skills" ps) skill) (VStr ""))).
    { simpl in Hin.
      destruct Hin as [E|[E|[E|[E|[E|[E|[]]]]]]]; subst skill; reflexivity. }
    rewrite Hcell. unfold or_else. now rewrite Hratings.
  - change (lookup "timestamp" (entry_of_row (row_in w ps)))
      with (timestamp_in w ps).
    change (lookup "last_modified" (entry_of_row (row_in w ps)))
      with (lastModified_in w ps).
    change (lookup "grade" (entry_of_row (row_in w ps))) with VUndef.
    unfold timestamp_in, lastModified_in, stamps_taken, advance.
    cbn [reads clock].
    split; [reflexivity|].
    split; [destruct (truthy (lookup "timestamp" ps)); reflexivity|].
    split; [destruct (truthy (lookup "timestamp" ps)); simpl; lia|].
    split; [now apply validateData_valid_grade | reflexivity].
Qed.

Lemma round_trip_under_header_keys_witness :
  exists r w' entry,
    buildRow complete_entry fresh_world = (Ok r, w')
    /\ rowToObject fresh_header r = Ok (VObj entry)
    /\ (forall field key, In (field, key) stored_as_is ->
        lookup key entry = lookup field complete_props)
    /\ (forall field key, In (field, key) stored_or_empty ->
        (truthy (lookup field complete_props) = true ->
         lookup key entry = lookup field complete_props)
        /\ (forall text, lookup field complete_props = VStr text ->
            lookup key entry = VStr text)
        /\ (lookup field complete_props = VUndef -> lookup key entry = VStr ""))
    /\ (forall skill, In skill LEARNING_SKILLS ->
        get (lookup "skills" entry) skill
        = get (lookup "skills" complete_props) skill)
    /\ lookup "timestamp" entry
       = (if truthy (lookup "timestamp" complete_props)
          then lookup "timestamp" complete_props
          else VStr (clock fresh_world (reads fresh_world)))
    /\ lookup "last_modified" entry = VStr (clock w' (pred (reads w')))
    /\ reads fresh_world < reads w'
    /\ truthy (lookup "grade" complete_props) = true
    /\ lookup "grade" entry = VUndef.
Proof.
  apply (round_trip_under_header_keys complete_props fresh_world).
  reflexivity.
Defined.

(** A supplied timestamp comes back as it was supplied, beside a
    last_modified taken from the clock. *)
Example round_trip_keeps_supplied_timestamp :
  exists r entry,
    fst (buildRow (VObj (("timestamp", VStr "2024-05-01T08:00:00.000Z")
                         :: complete_props)) fresh_world) = Ok r
    /\ rowToObject fresh_header r = Ok entry
    /\ get entry "timestamp" = Ok (VStr "2024-05-01T08:00:00.000Z")
    /\ get entry "last_modified" = Ok (VStr "T0")
    /\ get entry "grade" = Ok VUndef.
Proof.
  exists (row_in fresh_world
            (("timestamp", VStr "2024-05-01T08:00:00.000Z") :: complete_props)),
         (VObj (entry_of_row
                  (row_in fresh_world
                     (("timestamp", VStr "2024-05-01T08:00:00.000Z")
                      :: complete_props)))).
  repeat split; vm_compute; reflexivity.
Qed.

End RoundTrip.

Section WritePath.




(** The sample entry of testSaveEntry does not pass validateData: it has
    no grade. *)
Example testData_fails_validation timestamp :
  validateData (testData timestamp) = Ok ["Grade is required"]%list.
Proof. reflexivity. Qed.




(** The bare entry posted to the store of one entry, evaluated: the reply
    is success with action created, and its row stands below the row that
    was there. *)
Example doPost_saves_bare_entry :
  fst (doPost (Ok bare_entry) one_entry_world)
  = Ok (inl (SaveResult true "created" (VStr "Ada") VUndef))
  /\ data_rows (snd (doPost (Ok bare_entry) one_entry_world))
     = (data_rows one_entry_world
        ++ [ [ VStr "T2"; VUndef; VUndef; VStr ""; VStr "Ada";
               VStr ""; VStr ""; VStr "";
               VStr ""; VStr ""; VStr ""; VStr ""; VStr ""; VStr "";
               VUndef; VStr "T3" ] ])%list.
Proof. split; vm_compute; reflexivity. Qed.

End WritePath.

Section Delimited.

Lemma append_assoc (a b c : string) : ((a ++ b) ++ c = a ++ (b ++ c))%string.
Proof. induction a as [|x a IH]; simpl; [reflexivity | now rewrite IH]. Qed.

Lemma append_empty_r (a : string) : (a ++ "")%string = a.
Proof. induction a as [|x a IH]; simpl; [reflexivity | now rewrite IH]. Qed.

Lemma includes_char_existsb c s :
  includes_char c s = existsb (fun d => Ascii.eqb d c) (list_ascii_of_string s).
Proof.
  induction s as [|d rest IH]; simpl; [reflexivity|].
  rewrite IH. now destruct (Ascii.eqb d c).
Qed.

Lemma includes_special s :
  includes_char comma s || includes_char dquote s || includes_char newline s
  = CsvSpec.needs_quotes s.
Proof.
  unfold CsvSpec.needs_quotes, CsvSpec.special.
  rewrite !includes_char_existsb.
  induction (list_ascii_of_string s) as [|d rest IH]; simpl; [reflexivity|].
  rewrite <- IH.
  destruct (Ascii.eqb d comma), (Ascii.eqb d dquote), (Ascii.eqb d newline);
    simpl; try reflexivity;
    repeat match goal with
           | |- context [existsb ?p rest] => destruct (existsb p rest); simpl
           end; reflexivity.
Qed.

Lemma replace_all_doubled s :
  replace_all dquote (str1 dquote ++ str1 dquote) s = CsvSpec.doubled s.
Proof.
  unfold CsvSpec.doubled.
  induction s as [|d rest IH]; [reflexivity|].
  cbn [replace_all list_ascii_of_string flat_map]. rewrite IH.
  now destruct (Ascii.eqb d dquote).
Qed.

Lemma csv_cell_field cell : csv_cell cell = CsvSpec.field cell.
Proof.
  unfold csv_cell, CsvSpec.field. cbv zeta.
  now rewrite includes_special, replace_all_doubled.
Qed.

Lemma join_concat sep cells : join sep cells = String.concat sep cells.
Proof.
  induction cells as [|c rest IH]; [reflexivity|].
  cbn [join String.concat]. destruct rest; [reflexivity | now rewrite IH].
Qed.

Lemma csv_line r :
  (join (str1 comma) (map csv_cell r) ++ str1 newline)%string = CsvSpec.line r.
Proof.
  unfold CsvSpec.line. rewrite join_concat. do 2 f_equal.
  apply map_ext, csv_cell_field.
Qed.

Lemma concat_empty_cons x l :
  String.concat "" (x :: l) = (x ++ String.concat "" l)%string.
Proof.
  destruct l; cbn [String.concat]; [now rewrite append_empty_r | reflexivity].
Qed.

Lemma csv_loop table acc :
  fold_left
    (fun csv r => csv ++ (join (str1 comma) (map csv_cell r) ++ str1 newline))%string
    table acc
  = (acc ++ CsvSpec.render table)%string.
Proof.
  unfold CsvSpec.render. revert acc.
  induction table as [|r rest IH]; intros acc.
  - simpl. now rewrite append_empty_r.
  - cbn [fold_left map]. rewrite IH, csv_line, concat_empty_cons.
    apply append_assoc.
Qed.

Lemma render_ends_with_newline r rest :
  exists body, CsvSpec.render (r :: rest) = (body ++ str1 newline)%string.
Proof.
  unfold CsvSpec.render. revert r.
  induction rest as [|r' rest IH]; intros r.
  - eexists. cbn [map String.concat]. unfold CsvSpec.line. reflexivity.
  - destruct (IH r') as (body & Hb).
    exists (CsvSpec.line r ++ body)%string.
    change (map CsvSpec.line (r :: r' :: rest))
      with (CsvSpec.line r :: map CsvSpec.line (r' :: rest))%list.
    rewrite concat_empty_cons, Hb. symmetry. apply append_assoc.
Qed.

(** C6.  exportToCsv renders the table, header row and data rows in
    order: each row its cells joined by commas and ended by a newline;
    a cell containing a comma, a double quote or a newline wrapped in
    double quotes with its double quotes doubled, any other cell as it is;
    and the text ends with the newline of the last row. *)
Theorem exportToCsv_renders_table :
  forall w,
    let table := (header_row w :: data_rows w)%list in
    exportToCsv w = (Ok (CsvSpec.render table), with_sheet table w)
    /\ (exists body, CsvSpec.render table = (body ++ str1 newline)%string)
    /\ (forall cell,
          csv_cell cell
          = if existsb (fun c => Ascii.eqb c comma || Ascii.eqb c dquote
                                 || Ascii.eqb c newline)
                 (list_ascii_of_string (String_ cell))
            then (str1 dquote ++ CsvSpec.doubled (String_ cell) ++ str1 dquote)%string
            else String_ cell).
Proof.
  intros w table. split; [|split].
  - unfold exportToCsv.
    rewrite (bind_Ok _ _ _ _ _ (getOrCreateSheet_run w)).
    rewrite (bind_Ok _ _ _ _ _ (getValues_run _ w)).
    unfold ret. cbv zeta. now rewrite csv_loop.
  - apply render_ends_with_newline.
  - intros cell. apply csv_cell_field.
Qed.

(** The escaping example: the comment comes out as one quoted field, its
    two double quotes doubled. *)
Example exportToCsv_escapes_comment :
  csv_cell (VStr quoted_comment)
  = (str1 dquote
     ++ "Hello, " ++ str1 dquote ++ str1 dquote ++ "world"
     ++ str1 dquote ++ str1 dquote ++ str1 newline
     ++ str1 dquote)%string.
Proof. reflexivity. Qed.

End Delimited.

Section Summary.

Import SummarySpec.

Lemma summary_loop_run entries acc :
  forallb well_commented entries = true ->
  summary_loop entries (VNum (Int acc))
  = Ok (VNum (Int (acc + total_length entries))).
Proof.
  revert acc. induction entries as [|entry rest IH]; intros acc Hall.
  - unfold total_length. simpl. now rewrite Z.add_0_r.
  - cbn [forallb] in Hall. apply andb_prop in Hall as [He Hall].
    destruct entry as [| | | | |ps|]; try discriminate He.
    cbn [summary_loop]. simpl get. cbn [obind].
    unfold total_length. cbn [map fold_right comment_length].
    fold (total_length rest).
    simpl in He.
    destruct (lookup "comment" ps) as [| |b|[|z]|s| |] eqn:Ec;
      try discriminate He;
      try (unfold or_else; simpl; rewrite ?He; simpl; rewrite IH by assumption;
           do 3 f_equal; lia).
    + destruct b; [discriminate He|].
      unfold or_else; simpl. rewrite IH by assumption. do 3 f_equal; lia.
    + simpl in He. rewrite negb_involutive in He. unfold or_else. simpl. rewrite He.
      simpl. rewrite IH by assumption. do 3 f_equal; lia.
    + unfold or_else. simpl. destruct (String.eqb_spec s "") as [->|Hne]; simpl;
        rewrite IH by assumption; do 3 f_equal; lia.
Qed.

Lemma round_div_nearest total n :
  (0 < n)%Z -> nearest total n ((2 * total + n) / (2 * n)).
Proof.
  intros Hn. unfold nearest.
  pose proof (Z.div_mod (2 * total + n) (2 * n) ltac:(lia)) as Hdm.
  pose proof (Z.mod_pos_bound (2 * total + n) (2 * n) ltac:(lia)) as Hb.
  nia.
Qed.

(** C7.  When every entry's comment is a string or is absent,
    averageCommentLength is 0 for no entries, and otherwise the integer
    nearest to the sum of the comment lengths divided by the number of
    entries, an absent comment counting 0; the report is returned, with no
    fault. *)
Theorem average_comment_length_is_rounded_mean :
  forall w success entries w',
    getAllEntries w = (Ok (EntriesResult success entries), w') ->
    forallb well_commented entries = true ->
    exists average,
      generateSummaryReport w
      = (Ok {| totalEntries := List.length entries;
               averageCommentLength := VNum (Int average) |}, w')
      /\ (entries = []%list -> average = 0%Z)
      /\ (entries <> []%list ->
          nearest (total_length entries) (Z.of_nat (List.length entries)) average).
Proof.
  intros w success entries w' Hall Hwell.
  unfold generateSummaryReport.
  rewrite (bind_Ok _ _ _ _ _ Hall). cbn [entries_of].
  rewrite (summary_loop_run entries 0 Hwell).
  rewrite bind_lift_Ok. rewrite Z.add_0_l.
  destruct entries as [|e rest].
  - exists 0%Z. split; [reflexivity|]. split; [reflexivity|].
    intros Hne. now contradiction Hne.
  - set (entries := (e :: rest)%list) in *.
    exists ((2 * total_length entries + Z.of_nat (List.length entries))
            / (2 * Z.of_nat (List.length entries)))%Z.
    split; [reflexivity|]. split; [discriminate|].
    intros _. apply round_div_nearest. unfold entries. simpl. lia.
Qed.

Lemma average_comment_length_is_rounded_mean_witness :
  exists average,
    generateSummaryReport three_comments_world
    = (Ok {| totalEntries := 3; averageCommentLength := VNum (Int average) |},
       three_comments_world)
    /\ (map (fun r => VObj (entry_of_row r)) (data_rows three_comments_world)
        = []%list -> average = 0%Z)
    /\ (map (fun r => VObj (entry_of_row r)) (data_rows three_comments_world)
        <> []%list ->
        nearest
          (total_length
             (map (fun r => VObj (entry_of_row r)) (data_rows three_comments_world)))
          3 average).
Proof.
  apply (average_comment_length_is_rounded_mean three_comments_world true
           (map (fun r => VObj (entry_of_row r)) (data_rows three_comments_world))
           three_comments_world).
  - vm_compute. reflexivity.
  - vm_compute. reflexivity.
Defined.

(** Comment lengths 10, 20 and 30 average to 20; no entries, to 0. *)
Example average_of_10_20_30 :
  map SummarySpec.comment_length
    (map (fun r => VObj (entry_of_row r)) (data_rows three_comments_world))
  = [10; 20; 30]%Z
  /\ fst (generateSummaryReport three_comments_world)
     = Ok {| totalEntries := 3; averageCommentLength := VNum (Int 20) |}
  /\ fst (generateSummaryReport fresh_world)
     = Ok {| totalEntries := 0; averageCommentLength := VNum (Int 0) |}.
Proof. repeat split; reflexivity. Qed.

End Summary.

(* ================================================================== *)
(** ** Further properties of the script *)
(* ================================================================== *)

Section SheetSetup.

(** X1.  getOrCreateSheet leaves a tab with content exactly as it is,
    gives a missing or empty tab the header row of getHeaders and nothing
    else, and run a second time changes nothing. *)
Theorem getOrCreateSheet_idempotent :
  forall w,
    exists w1,
      getOrCreateSheet w = (Ok tt, w1)
      /\ getOrCreateSheet w1 = (Ok tt, w1)
      /\ sheet w1 = Some (header_row w :: data_rows w)
      /\ (forall h rows, sheet w = Some (h :: rows)%list -> w1 = w)
      /\ (sheet w = None \/ sheet w = Some []%list ->
          sheet w1 = Some [map VStr getHeaders]%list).
Proof.
  intros w. exists (snd (getOrCreateSheet w)).
  destruct w as [[[|h rows]|] clk n]; cbn.
  all: repeat split; try reflexivity.
  all: try (intros h' rows' H; discriminate H).
  all: try (intros [H|H]; discriminate H).
Qed.

End SheetSetup.

Section Lookup.

Lemma findStudentRow_loop_first rows i s c :
  (findStudentRow_loop i rows s c = 0%nat
   /\ existsb (has_key s c) rows = false)
  \/ (exists pre r post,
        rows = (pre ++ r :: post)%list
        /\ findStudentRow_loop i rows s c = (i + List.length pre + 1)%nat
        /\ has_key s c r = true
        /\ existsb (has_key s c) pre = false).
Proof.
  revert i. induction rows as [|x rest IH]; intros i; cbn [findStudentRow_loop].
  - left. split; reflexivity.
  - fold (has_key s c x). cbn [existsb]. destruct (has_key s c x) eqn:E.
    + right. exists []%list, x, rest. cbn. repeat split; [lia | assumption].
    + destruct (IH (S i)) as [[H0 Hn]|(pre & r & post & -> & Hpos & Hr & Hpre)].
      * left. split; assumption.
      * right. exists (x :: pre)%list, r, post. cbn [app List.length existsb].
        rewrite E, Hpos. repeat split; try assumption. lia.
Qed.

(** X2.  findStudentRow returns the sheet position of the first data row
    whose Student Name and Course cells strictly equal its arguments, the
    header row being row 1 and never looked at; it returns 0 exactly when
    no data row matches; and it reads without changing anything. *)
Theorem findStudentRow_first_match :
  forall h rows s c w,
    sheet w = Some (h :: rows)%list ->
    exists pos,
      findStudentRow s c w = (Ok pos, w)
      /\ ((pos = 0%nat /\ existsb (has_key s c) rows = false)
          \/ (exists pre r post,
                rows = (pre ++ r :: post)%list
                /\ pos = (List.length pre + 2)%nat
                /\ has_key s c r = true
                /\ existsb (has_key s c) pre = false)).
Proof.
  intros h rows s c w Hw.
  exists (findStudentRow_loop 1 rows s c). split.
  - unfold findStudentRow, bind, getValues, ret. rewrite Hw. reflexivity.
  - destruct (findStudentRow_loop_first rows 1 s c)
      as [[H0 Hn]|(pre & r & post & Hrows & Hpos & Hr & Hpre)].
    + left. split; assumption.
    + right. exists pre, r, post. repeat split; try assumption. lia.
Qed.

Lemma findStudentRow_first_match_witness :
  exists pos,
    findStudentRow (VStr "Test Student") (VStr "Math 7A") one_entry_world
    = (Ok pos, one_entry_world)
    /\ ((pos = 0%nat
         /\ existsb (has_key (VStr "Test Student") (VStr "Math 7A"))
              (data_rows one_entry_world) = false)
        \/ (exists pre r post,
              data_rows one_entry_world = (pre ++ r :: post)%list
              /\ pos = (List.length pre + 2)%nat
              /\ has_key (VStr "Test Student") (VStr "Math 7A") r = true
              /\ existsb (has_key (VStr "Test Student") (VStr "Math 7A")) pre
                 = false)).
Proof.
  apply (findStudentRow_first_match (header_row one_entry_world)
           (data_rows one_entry_world)).
  reflexivity.
Defined.

End Lookup.

Section Saving.

Lemma getOrCreateSheet_idempotent_witness :
  exists w1,
    getOrCreateSheet fresh_world = (Ok tt, w1)
    /\ sheet w1 = Some [map VStr getHeaders]%list.
Proof.
  destruct (getOrCreateSheet_idempotent fresh_world)
    as (w1 & Hrun & _ & _ & _ & Hfresh).
  exists w1. split; [exact Hrun|]. apply Hfresh. left. reflexivity.
Defined.

Lemma index_overwrite r old i :
  (i < List.length r)%nat -> index (overwrite r old) i = index r i.
Proof. intros H. unfold index, overwrite. now apply app_nth1. Qed.

Lemma has_key_overwrite sn cn r old :
  (4 < List.length r)%nat -> has_key sn cn (overwrite r old) = has_key sn cn r.
Proof.
  intros H. unfold has_key, studentCol, courseCol.
  rewrite !index_overwrite by lia. reflexivity.
Qed.

Lemma upsert_length sn cn r rows :
  List.length (upsert sn cn r rows)
  = (if existsb (has_key sn cn) rows then List.length rows
     else S (List.length rows)).
Proof.
  induction rows as [|x rest IH]; cbn [upsert existsb List.length]; [reflexivity|].
  destruct (has_key sn cn x); cbn [orb List.length]; [reflexivity|].
  rewrite IH. now destruct (existsb (has_key sn cn) rest).
Qed.

Lemma upsert_present sn cn r rows :
  has_key sn cn r = true -> (4 < List.length r)%nat ->
  existsb (has_key sn cn) (upsert sn cn r rows) = true.
Proof.
  intros Hr Hlen.
  induction rows as [|x rest IH]; cbn [upsert existsb].
  - now rewrite Hr.
  - destruct (has_key sn cn x) eqn:E; cbn [existsb].
    + now rewrite has_key_overwrite, Hr.
    + now rewrite E, IH.
Qed.

Lemma filter_upsert_other (p : row -> bool) sn cn r rows :
  p r = false ->
  (forall old, p (overwrite r old) = p r) ->
  (forall x, has_key sn cn x = true -> p x = false) ->
  filter p (upsert sn cn r rows) = filter p rows.
Proof.
  intros Hr Hover Hother.
  induction rows as [|x rest IH]; cbn [upsert filter].
  - now rewrite Hr.
  - destruct (has_key sn cn x) eqn:E; cbn [filter].
    + now rewrite Hover, Hr, (Hother x E).
    + now rewrite IH.
Qed.

Lemma has_key_other_pair s c s' c' x :
  (s', c') <> (s, c) ->
  has_key (VStr s) (VStr c) x = true -> has_key (VStr s') (VStr c') x = false.
Proof.
  intros Hne H. unfold has_key in *.
  apply andb_prop in H as [H1 H2].
  apply strict_eq_VStr in H1, H2. rewrite H1, H2. simpl.
  destruct (String.eqb_spec s s') as [->|]; [|reflexivity].
  destruct (String.eqb_spec c c') as [->|]; [|reflexivity].
  now contradiction Hne.
Qed.

Lemma row_in_has_key s c w ps :
  lookup "student" ps = VStr s -> lookup "course" ps = VStr c ->
  has_key (VStr s) (VStr c) (row_in w ps) = true.
Proof.
  intros Hs Hc. unfold has_key.
  rewrite row_in_student, row_in_course, Hs, Hc, or_string_default.
  now rewrite !strict_eq_VStr_refl.
Qed.

(** X3.  A submission for one (student, course) pair leaves the rows of
    every other pair as they were: the same rows, in the same order. *)
Theorem saveGradeEntry_keeps_other_pairs :
  forall s c s' c' data w,
    carries s c data = true ->
    (s', c') <> (s, c) ->
    rows_of (VStr s') (VStr c') (data_rows (snd (saveGradeEntry data w)))
    = rows_of (VStr s') (VStr c') (data_rows w).
Proof.
  intros s c s' c' data w Hc Hne.
  destruct (carries_inv _ _ _ Hc) as (ps & -> & Hs & Hco & Hsk).
  pose proof (saveGradeEntry_run ps w Hsk) as H. cbv zeta in H.
  rewrite H, Hs, Hco.
  change (data_rows (snd (_, advance _ (with_sheet (?h :: ?rows) w)))) with rows.
  pose proof (row_in_has_key s c w ps Hs Hco) as Hkey.
  unfold rows_of. apply filter_upsert_other.
  - now apply (has_key_other_pair s c).
  - intros old. apply has_key_overwrite. rewrite row_in_length. simpl. lia.
  - intros x. now apply has_key_other_pair.
Qed.

Lemma saveGradeEntry_keeps_other_pairs_witness :
  rows_of (VStr "Test Student") (VStr "Math 7A")
    (data_rows (snd (saveGradeEntry other_course_entry one_entry_world)))
  = rows_of (VStr "Test Student") (VStr "Math 7A") (data_rows one_entry_world).
Proof.
  apply (saveGradeEntry_keeps_other_pairs "Test Student" "Science 7B").
  - reflexivity.
  - discriminate.
Defined.

(** X4.  saveGradeEntry answers updated exactly when a data row already
    carries the submitted student and course, and then the store has as
    many data rows as before; otherwise it answers created and the store
    has one more.  The answer repeats the submitted student and course. *)
Theorem saveGradeEntry_reports_what_it_did :
  forall ps w,
    is_nullish (lookup "skills" ps) = false ->
    exists w',
      saveGradeEntry (VObj ps) w
      = (Ok (SaveResult true
               (if existsb (has_key (lookup "student" ps) (lookup "course" ps))
                     (data_rows w)
                then "updated" else "created")
               (lookup "student" ps) (lookup "course" ps)), w')
      /\ List.length (data_rows w')
         = (if existsb (has_key (lookup "student" ps) (lookup "course" ps))
                 (data_rows w)
            then List.length (data_rows w)
            else S (List.length (data_rows w))).
Proof.
  intros ps w Hsk. eexists. split; [apply saveGradeEntry_run, Hsk|].
  change (data_rows (advance _ (with_sheet (?h :: ?rows) w))) with rows.
  apply upsert_length.
Qed.

Lemma saveGradeEntry_reports_what_it_did_witness :
  exists w',
    saveGradeEntry complete_entry one_entry_world
    = (Ok (SaveResult true "updated" (VStr "Test Student") (VStr "Math 7A")), w')
    /\ List.length (data_rows w') = 1%nat.
Proof.
  apply (saveGradeEntry_reports_what_it_did complete_props one_entry_world).
  reflexivity.
Defined.

(** X5.  Whatever the submission, and whether saveGradeEntry returns or
    throws, it leaves the header row as it found it, removes no data row
    and adds at most one; when the row cannot be built the data rows are
    unchanged. *)
Theorem saveGradeEntry_keeps_header_and_rows :
  forall data w,
    header_row (snd (saveGradeEntry data w)) = header_row w
    /\ (List.length (data_rows w)
        <= List.length (data_rows (snd (saveGradeEntry data w)))
        <= S (List.length (data_rows w)))%nat
    /\ (savable data = false ->
        data_rows (snd (saveGradeEntry data w)) = data_rows w).
Proof.
  intros data w. destruct (savable data) eqn:Hs.
  - destruct data as [| | | | |ps|]; try discriminate Hs.
    simpl in Hs. apply negb_true_iff in Hs.
    pose proof (saveGradeEntry_run ps w Hs) as H. cbv zeta in H. rewrite H.
    change (header_row (snd (_, advance _ (with_sheet (?h :: ?rows) w)))) with h.
    change (data_rows (snd (_, advance _ (with_sheet (?h :: ?rows) w)))) with rows.
    split; [reflexivity|]. split; [|discriminate].
    rewrite upsert_length. destruct (existsb _ (data_rows w)); lia.
  - destruct (saveGradeEntry_throws data w Hs) as (f & k & ->).
    change (header_row (snd (_, advance _ (with_sheet (?h :: ?rows) w)))) with h.
    change (data_rows (snd (_, advance _ (with_sheet (?h :: ?rows) w)))) with rows.
    split; [reflexivity|]. split; [lia | reflexivity].
Qed.

Lemma saveGradeEntry_keeps_header_and_rows_witness :
  data_rows (snd (saveGradeEntry VNull one_entry_world))
  = data_rows one_entry_world.
Proof.
  apply (saveGradeEntry_keeps_header_and_rows VNull one_entry_world).
  reflexivity.
Defined.

(** X6.  Once a submission for a (student, course) pair is saved, the
    pair is found: findStudentRow returns a data row position, and the
    next submission for the pair is answered updated and adds no row. *)
Theorem saved_pair_is_found_and_updated :
  forall s c data next w,
    carries s c data = true -> carries s c next = true ->
    exists pos result w1 w2,
      saveGradeEntry data w = (Ok result, w1)
      /\ findStudentRow (VStr s) (VStr c) w1 = (Ok pos, w1)
      /\ (2 <= pos <= S (List.length (data_rows w1)))%nat
      /\ saveGradeEntry next w1
         = (Ok (SaveResult true "updated" (VStr s) (VStr c)), w2)
      /\ List.length (data_rows w2) = List.length (data_rows w1).
Proof.
  intros s c data next w Hd Hn.
  destruct (carries_inv _ _ _ Hd) as (ps & -> & Hs & Hco & Hsk).
  destruct (carries_inv _ _ _ Hn) as (ps' & -> & Hs' & Hco' & Hsk').
  pose proof (saveGradeEntry_run ps w Hsk) as H. cbv zeta in H.
  rewrite Hs, Hco in H.
  set (rows1 := upsert (VStr s) (VStr c) (row_in w ps) (data_rows w)) in *.
  set (w1 := advance (stamps_taken ps) (with_sheet (header_row w :: rows1) w)) in *.
  assert (Hfound : existsb (has_key (VStr s) (VStr c)) rows1 = true).
  { apply upsert_present; [now apply row_in_has_key|].
    rewrite row_in_length. simpl. lia. }
  pose proof (saveGradeEntry_run ps' w1 Hsk') as H'. cbv zeta in H'.
  rewrite Hs', Hco' in H'.
  change (data_rows w1) with rows1 in H'. rewrite Hfound in H'.
  exists (findStudentRow_loop 1 rows1 (VStr s) (VStr c)).
  eexists. exists w1. eexists.
  split; [exact H|]. split; [reflexivity|].
  split.
  - change (data_rows w1) with rows1.
    destruct (findStudentRow_loop_first rows1 1 (VStr s) (VStr c))
      as [[_ Hnone]|(pre & r & post & Hrows & Hpos & _ & _)].
    + congruence.
    + rewrite Hpos, Hrows, length_app. simpl. lia.
  - split; [exact H'|].
    change (data_rows (advance _ (with_sheet (?h :: ?rows) w1))) with rows.
    change (data_rows w1) with rows1.
    now rewrite upsert_length, Hfound.
Qed.

Lemma saved_pair_is_found_and_updated_witness :
  exists pos result w1 w2,
    saveGradeEntry complete_entry fresh_world = (Ok result, w1)
    /\ findStudentRow (VStr "Test Student") (VStr "Math 7A") w1 = (Ok pos, w1)
    /\ (2 <= pos <= S (List.length (data_rows w1)))%nat
    /\ saveGradeEntry revised_entry w1
       = (Ok (SaveResult true "updated" (VStr "Test Student") (VStr "Math 7A")),
          w2)
    /\ List.length (data_rows w2) = List.length (data_rows w1).
Proof.
  apply (saved_pair_is_found_and_updated "Test Student" "Math 7A"
           complete_entry revised_entry fresh_world); reflexivity.
Defined.

End Saving.

Section Listing.

Lemma getAllEntries_world w :
  snd (getAllEntries w) = with_sheet (header_row w :: data_rows w) w.
Proof.
  unfold getAllEntries.
  rewrite (bind_Ok _ _ _ _ _ (getOrCreateSheet_run w)).
  rewrite (bind_Ok _ _ _ _ _ (getValues_run _ w)).
  destruct (List.length (header_row w :: data_rows w) <=? 1)%nat; [reflexivity|].
  unfold bind, lift, ret.
  destruct (map_outcome _ _); reflexivity.
Qed.

Lemma filter_outcome_key key wanted rows :
  filter_outcome
    (fun entry => v <~ get entry key ;; Ok (strict_eq v wanted))
    (map (fun r => VObj (entry_of_row r)) rows)
  = Ok (map (fun r => VObj (entry_of_row r))
          (filter (fun r => strict_eq (lookup key (entry_of_row r)) wanted) rows)).
Proof.
  induction rows as [|r rest IH]; [reflexivity|].
  cbn [map filter_outcome filter]. rewrite IH.
  change (get (VObj (entry_of_row r)) key) with (Ok (lookup key (entry_of_row r))).
  cbn [obind].
  now destruct (strict_eq (lookup key (entry_of_row r)) wanted).
Qed.

(** X7.  Under the header row this script writes, getEntriesByTeacher
    returns the entries of exactly the data rows whose Teacher Email cell
    strictly equals the argument, in the order of the rows, and changes no
    data row. *)
Theorem getEntriesByTeacher_filters_by_email :
  forall w teacherEmail,
    header_row w = fresh_header ->
    fst (getEntriesByTeacher teacherEmail w)
    = Ok (EntriesResult true
            (map (fun r => VObj (entry_of_row r))
               (filter (teacher_is teacherEmail) (data_rows w))))
    /\ data_rows (snd (getEntriesByTeacher teacherEmail w)) = data_rows w.
Proof.
  intros w teacherEmail Hh. unfold getEntriesByTeacher.
  rewrite (bind_Ok _ _ _ _ _ (getAllEntries_run w Hh)).
  cbn [entries_of]. unfold bind, lift, ret.
  rewrite filter_outcome_key. split; reflexivity.
Qed.

Lemma getEntriesByTeacher_filters_by_email_witness :
  fst (getEntriesByTeacher (VStr "t@school.edu") three_comments_world)
  = Ok (EntriesResult true
          (map (fun r => VObj (entry_of_row r))
             (filter (teacher_is (VStr "t@school.edu"))
                (data_rows three_comments_world))))
  /\ data_rows (snd (getEntriesByTeacher (VStr "t@school.edu") three_comments_world))
     = data_rows three_comments_world.
Proof.
  apply (getEntriesByTeacher_filters_by_email three_comments_world).
  reflexivity.
Defined.

(** X8.  Under the header row this script writes, getEntriesByStudent
    called without a name (the argument undefined, as when the request
    has no student parameter) returns every entry of getAllEntries. *)
Theorem getEntriesByStudent_without_name_lists_all :
  forall w,
    header_row w = fresh_header ->
    fst (getEntriesByStudent VUndef w) = fst (getAllEntries w).
Proof.
  intros w Hh. unfold getEntriesByStudent.
  rewrite (bind_Ok _ _ _ _ _ (getAllEntries_run w Hh)).
  cbn [entries_of]. unfold bind, lift, ret.
  rewrite filter_outcome_key, (getAllEntries_run w Hh). cbn [fst].
  do 3 f_equal.
  induction (data_rows w) as [|r rest IH]; [reflexivity|].
  cbn [filter]. change (lookup "student" (entry_of_row r)) with VUndef.
  cbn [strict_eq]. now rewrite IH.
Qed.

Lemma getEntriesByStudent_without_name_lists_all_witness :
  fst (getEntriesByStudent VUndef three_comments_world)
  = fst (getAllEntries three_comments_world).
Proof.
  apply (getEntriesByStudent_without_name_lists_all three_comments_world).
  reflexivity.
Defined.

Lemma getAllEntries_no_rows w :
  data_rows w = []%list -> fst (getAllEntries w) = Ok (EntriesResult true []).
Proof.
  intros Hrows. unfold getAllEntries.
  rewrite (bind_Ok _ _ _ _ _ (getOrCreateSheet_run w)).
  rewrite (bind_Ok _ _ _ _ _ (getValues_run _ w)).
  rewrite Hrows. reflexivity.
Qed.

(** X9.  getAllEntries changes no data row and leaves the header row in
    place, whatever it returns.  On a store without data rows it returns
    the empty list whatever the header row holds; under the header row
    this script writes it returns one entry per data row, in order, each
    made of that row's cells. *)
Theorem getAllEntries_lists_every_row :
  forall w,
    data_rows (snd (getAllEntries w)) = data_rows w
    /\ header_row (snd (getAllEntries w)) = header_row w
    /\ (data_rows w = []%list ->
        fst (getAllEntries w) = Ok (EntriesResult true []))
    /\ (header_row w = fresh_header ->
        fst (getAllEntries w)
        = Ok (EntriesResult true
                (map (fun r => VObj (entry_of_row r)) (data_rows w)))).
Proof.
  intros w. rewrite getAllEntries_world.
  split; [reflexivity|]. split; [reflexivity|]. split.
  - apply getAllEntries_no_rows.
  - intros Hh. now rewrite (getAllEntries_run w Hh).
Qed.

Lemma getAllEntries_lists_every_row_witness :
  fst (getAllEntries fresh_world) = Ok (EntriesResult true [])
  /\ fst (getAllEntries three_comments_world)
     = Ok (EntriesResult true
             (map (fun r => VObj (entry_of_row r))
                (data_rows three_comments_world))).
Proof.
  split.
  - apply (getAllEntries_lists_every_row fresh_world). reflexivity.
  - apply (getAllEntries_lists_every_row three_comments_world). reflexivity.
Defined.

Lemma rowToObject_injective r1 r2 :
  List.length r1 = List.length getHeaders ->
  List.length r2 = List.length getHeaders ->
  rowToObject fresh_header r1 = rowToObject fresh_header r2 ->
  r1 = r2.
Proof.
  intros H1 H2 H.
  rewrite !rowToObject_fresh_header in H.
  unfold entry_of_row in H.
  injection H as E0 E1 E2 E3 E4 E5 E6 E7 E8 E9 E10 E11 E12 E13 E14 E15.
  apply (nth_ext r1 r2 VUndef VUndef); [congruence|].
  intros n Hn. rewrite H1 in Hn. change (List.length getHeaders) with 16%nat in Hn.
  unfold index in *.
  do 16 (destruct n as [|n]; [assumption|]). lia.
Qed.

(** X10.  Under the header row of getHeaders, rowToObject loses nothing
    of a row aligned with the schema: two such rows that differ in some
    cell give different entries. *)
Theorem rowToObject_keeps_every_cell :
  forall r1 r2,
    List.length r1 = List.length getHeaders ->
    List.length r2 = List.length getHeaders ->
    r1 <> r2 ->
    rowToObject fresh_header r1 <> rowToObject fresh_header r2.
Proof.
  intros r1 r2 H1 H2 Hne H. apply Hne. now apply rowToObject_injective.
Qed.

Lemma rowToObject_keeps_every_cell_witness :
  rowToObject fresh_header (row_in fresh_world complete_props)
  <> rowToObject fresh_header (row_in fresh_world revised_props).
Proof.
  apply rowToObject_keeps_every_cell; [reflexivity | reflexivity |].
  intros H. vm_compute in H. discriminate H.
Defined.

End Listing.

Section Clearing.

Lemma clearAllData_run w :
  clearAllData w = (Ok tt, with_sheet [header_row w] w).
Proof.
  unfold clearAllData.
  rewrite (bind_Ok _ _ _ _ _ (getOrCreateSheet_run w)).
  unfold bind, lastRow, update, ret, with_sheet, getLastRow, deleteRows.
  cbn [sheet clock reads List.length].
  destruct (data_rows w) as [|r rest] eqn:E; cbn [List.length Nat.ltb Nat.leb].
  - reflexivity.
  - cbn. rewrite skipn_all2 by (cbn; lia). reflexivity.
Qed.

(** X11.  clearAllData removes every data row and keeps the header row,
    creating it on a missing or empty tab; after it getAllEntries returns
    no entry, and clearing again changes nothing. *)
Theorem clearAllData_keeps_only_header :
  forall w,
    exists w',
      clearAllData w = (Ok tt, w')
      /\ sheet w' = Some [header_row w]%list
      /\ clearAllData w' = (Ok tt, w')
      /\ fst (getAllEntries w') = Ok (EntriesResult true []).
Proof.
  intros w. exists (with_sheet [header_row w] w).
  split; [apply clearAllData_run|]. split; [reflexivity|].
  split; [rewrite clearAllData_run; reflexivity|].
  apply getAllEntries_no_rows. reflexivity.
Qed.

End Clearing.

Section Exporting.

Lemma exportToCsv_run w :
  exportToCsv w
  = (Ok (CsvSpec.render (header_row w :: data_rows w)),
     with_sheet (header_row w :: data_rows w) w).
Proof.
  unfold exportToCsv.
  rewrite (bind_Ok _ _ _ _ _ (getOrCreateSheet_run w)).
  rewrite (bind_Ok _ _ _ _ _ (getValues_run _ w)).
  unfold ret. cbv zeta. now rewrite csv_loop.
Qed.

Lemma render_app table r :
  CsvSpec.render (table ++ [r])%list
  = (CsvSpec.render table ++ CsvSpec.line r)%string.
Proof.
  unfold CsvSpec.render.
  induction table as [|x rest IH].
  - reflexivity.
  - change (map CsvSpec.line ((x :: rest) ++ [r])%list)
      with (CsvSpec.line x :: map CsvSpec.line (rest ++ [r]))%list.
    change (map CsvSpec.line (x :: rest))
      with (CsvSpec.line x :: map CsvSpec.line rest)%list.
    rewrite !concat_empty_cons, IH. symmetry. apply append_assoc.
Qed.

(** X12.  exportToCsv changes no data row, and a submission that is
    created adds exactly its own line at the end of the export: the text
    after the save is the text before it followed by the new row, its
    cells joined by commas and ended by a newline. *)
Theorem exportToCsv_grows_by_created_line :
  forall ps w,
    is_nullish (lookup "skills" ps) = false ->
    existsb (has_key (lookup "student" ps) (lookup "course" ps)) (data_rows w)
    = false ->
    exists before r,
      fst (exportToCsv w) = Ok before
      /\ data_rows (snd (exportToCsv w)) = data_rows w
      /\ fst (buildRow (VObj ps) w) = Ok r
      /\ fst (exportToCsv (snd (saveGradeEntry (VObj ps) w)))
         = Ok (before
               ++ String.concat (str1 comma) (map csv_cell r)
               ++ str1 newline)%string.
Proof.
  intros ps w Hsk Hnew.
  exists (CsvSpec.render (header_row w :: data_rows w)), (row_in w ps).
  rewrite (exportToCsv_run w).
  split; [reflexivity|]. split; [reflexivity|].
  rewrite (buildRow_run ps w Hsk). split; [reflexivity|].
  pose proof (saveGradeEntry_run ps w Hsk) as H. cbv zeta in H. rewrite H.
  rewrite (upsert_absent _ _ _ _ Hnew).
  rewrite exportToCsv_run.
  change (header_row (snd (_, advance _ (with_sheet (?h :: ?rows) w)))) with h.
  change (data_rows (snd (_, advance _ (with_sheet (?h :: ?rows) w)))) with rows.
  cbn [fst]. f_equal.
  change (header_row w :: data_rows w ++ [row_in w ps])%list
    with ((header_row w :: data_rows w) ++ [row_in w ps])%list.
  rewrite render_app. f_equal.
  rewrite <- csv_line, join_concat. reflexivity.
Qed.

Lemma exportToCsv_grows_by_created_line_witness :
  exists before r,
    fst (exportToCsv one_entry_world) = Ok before
    /\ data_rows (snd (exportToCsv one_entry_world)) = data_rows one_entry_world
    /\ fst (buildRow no_mark_entry one_entry_world) = Ok r
    /\ fst (exportToCsv (snd (saveGradeEntry no_mark_entry one_entry_world)))
       = Ok (before
             ++ String.concat (str1 comma) (map csv_cell r)
             ++ str1 newline)%string.
Proof.
  apply (exportToCsv_grows_by_created_line no_mark_props one_entry_world);
    reflexivity.
Defined.

End Exporting.

Section SummaryEdges.

Import SummarySpec.

Lemma summary_loop_NaN entries :
  forallb primitive_comment entries = true ->
  summary_loop entries (VNum NaN) = Ok (VNum NaN).
Proof.
  induction entries as [|entry rest IH]; intros Hall; [reflexivity|].
  cbn [forallb] in Hall. apply andb_prop in Hall as [He Hall].
  destruct entry as [| | | | |ps|]; try discriminate He.
  cbn [summary_loop]. simpl get. cbn [obind].
  simpl in He.
  destruct (lookup "comment" ps) as [| |[|]|[|z]|s| |]; try discriminate He;
    unfold or_else; simpl;
    try (destruct (negb (z =? 0)%Z); simpl);
    try (destruct (negb (s =? "")%string); simpl);
    apply IH, Hall.
Qed.

Lemma summary_loop_primitive entries acc :
  forallb primitive_comment entries = true ->
  summary_loop entries (VNum (Int acc))
  = Ok (VNum (if forallb well_commented entries
              then Int (acc + total_length entries) else NaN)).
Proof.
  revert acc. induction entries as [|entry rest IH]; intros acc Hall.
  - unfold total_length. simpl. now rewrite Z.add_0_r.
  - cbn [forallb] in Hall. apply andb_prop in Hall as [He Hall].
    destruct (well_commented entry) eqn:Hw.
    + cbn [forallb]. rewrite Hw. cbn [andb].
      destruct (forallb well_commented rest) eqn:Hrest.
      * rewrite (summary_loop_run (entry :: rest) acc); [reflexivity|].
        cbn [forallb]. now rewrite Hw, Hrest.
      * specialize (IH (acc + comment_length entry)%Z Hall).
        pose proof (summary_loop_run [entry]%list acc) as H1.
        cbn [forallb] in H1. rewrite Hw in H1. specialize (H1 eq_refl).
        destruct entry as [| | | | |ps|]; try discriminate He.
        cbn [summary_loop] in H1 |- *.
        destruct (get (VObj ps) "teacher_name"); try discriminate H1.
        cbn [obind] in H1 |- *.
        destruct (get (VObj ps) "grade"); try discriminate H1.
        cbn [obind] in H1 |- *.
        destruct (get (VObj ps) "comment") as [cm| |]; try discriminate H1.
        cbn [obind] in H1 |- *.
        destruct (get (or_else cm (VStr "")) "length") as [len| |];
          try discriminate H1.
        cbn [obind] in H1 |- *.
        destruct (add (VNum (Int acc)) len) as [tot| |]; try discriminate H1.
        cbn [obind] in H1 |- *.
        injection H1 as ->.
        unfold total_length. cbn [map fold_right].
        rewrite Z.add_0_r. exact IH.
    + cbn [forallb]. rewrite Hw. cbn [andb].
      destruct entry as [| | | | |ps|]; try discriminate He.
      cbn [summary_loop]. simpl get. cbn [obind].
      simpl in He, Hw.
      destruct (lookup "comment" ps) as [| |[|]|[|z]|s| |];
        try discriminate He; try discriminate Hw.
      * unfold or_else; simpl. now apply summary_loop_NaN.
      * simpl in Hw. rewrite negb_involutive in Hw.
        unfold or_else; simpl. rewrite Hw. simpl. now apply summary_loop_NaN.
Qed.

(** X13.  When some entry's comment is neither a string nor absent but a
    number other than zero or the value true, as when the sheet holds a
    numeric cell in the Comment column, averageCommentLength is NaN: such
    a comment has no length and the sum is lost. *)
Theorem average_comment_length_NaN_on_numeric_comment :
  forall w success entries w',
    getAllEntries w = (Ok (EntriesResult success entries), w') ->
    forallb primitive_comment entries = true ->
    forallb well_commented entries = false ->
    generateSummaryReport w
    = (Ok {| totalEntries := List.length entries;
             averageCommentLength := VNum NaN |}, w').
Proof.
  intros w success entries w' Hall Hprim Hbad.
  unfold generateSummaryReport.
  rewrite (bind_Ok _ _ _ _ _ Hall). cbn [entries_of].
  rewrite (summary_loop_primitive entries 0 Hprim), Hbad.
  rewrite bind_lift_Ok.
  destruct entries as [|e rest]; [discriminate Hbad|].
  reflexivity.
Qed.

Lemma average_comment_length_NaN_on_numeric_comment_witness :
  generateSummaryReport numeric_comment_world
  = (Ok {| totalEntries := 2; averageCommentLength := VNum NaN |},
     numeric_comment_world).
Proof.
  apply (average_comment_length_NaN_on_numeric_comment numeric_comment_world true
           (map (fun r => VObj (entry_of_row r)) (data_rows numeric_comment_world)));
    reflexivity.
Defined.

End SummaryEdges.

Section ValidationCounts.

Lemma validate_skills_count ps skills errors :
  is_nullish (lookup "skills" ps) = false ->
  exists extra,
    validate_skills (VObj ps) skills errors = Ok (errors ++ extra)%list
    /\ List.length extra
       = missing (map (rating (lookup "skills" ps)) skills).
Proof.
  intros Hsk. revert errors.
  induction skills as [|skill rest IH]; intros errors.
  - exists []%list. rewrite app_nil_r. split; reflexivity.
  - cbn [validate_skills]. simpl get. cbn [obind].
    rewrite (get_rating _ skill Hsk). cbn [obind].
    unfold missing in *. cbn [map filter].
    destruct (truthy (rating (lookup "skills" ps) skill)); cbn [negb].
    + apply IH.
    + destruct (IH (errors ++ [(skill ++ " rating is required")%string])%list)
        as (extra & -> & Hlen).
      exists ((skill ++ " rating is required")%string :: extra)%list.
      rewrite <- app_assoc. split; [reflexivity|].
      cbn [List.length]. now rewrite Hlen.
Qed.

(** X14.  validateData reports every check that fails, not only the
    first: for a submission whose comment is not an object, it returns
    one message per violation, counting a missing teacher, student and
    grade, a missing skills object or else each missing rating, and a
    missing comment or else one longer than 500 characters.  It returns
    no message exactly when there is no violation. *)
Theorem validateData_reports_every_violation :
  forall ps,
    primitive_comment (VObj ps) = true ->
    exists errs,
      validateData (VObj ps) = Ok errs
      /\ List.length errs = violations ps
      /\ (errs = []%list <-> violations ps = 0%nat).
Proof.
  intros ps Hprim.
  assert (Hgoal : exists errs,
             validateData (VObj ps) = Ok errs
             /\ List.length errs = violations ps).
  { unfold validateData, violations. simpl get. cbn [obind].
    set (e3 := (if negb (truthy (lookup "grade" ps)) then _ else _)).
    assert (He3 : List.length e3
                  = missing [lookup "teacher" ps; lookup "student" ps;
                             lookup "grade" ps]).
    { unfold e3, missing. cbn [filter].
      destruct (truthy (lookup "teacher" ps));
        destruct (truthy (lookup "student" ps));
        destruct (truthy (lookup "grade" ps)); reflexivity. }
    rewrite <- He3. clear He3.
    assert (Hskills : exists e4,
               (if negb (truthy (lookup "skills" ps))
                   || negb (typeof (lookup "skills" ps) =? "object")
                then Ok (e3 ++ ["Learning skills are required"])%list
                else validate_skills (VObj ps) LEARNING_SKILLS e3) = Ok e4
               /\ List.length e4
                  = (List.length e3
                     + (if negb (truthy (lookup "skills" ps))
                           || negb (typeof (lookup "skills" ps) =? "object")%string
                        then 1
                        else missing (map (rating (lookup "skills" ps))
                                        LEARNING_SKILLS)))%nat).
    { destruct (negb (truthy (lookup "skills" ps))
                || negb (typeof (lookup "skills" ps) =? "object")) eqn:E.
      - eexists. split; [reflexivity|]. rewrite length_app. reflexivity.
      - apply orb_false_elim in E as [E _]. apply negb_false_iff in E.
        assert (Hsk : is_nullish (lookup "skills" ps) = false)
          by (destruct (lookup "skills" ps); try discriminate; reflexivity).
        destruct (validate_skills_count ps LEARNING_SKILLS e3 Hsk)
          as (extra & Hrun & Hlen).
        eexists. split; [exact Hrun|]. rewrite length_app. now rewrite Hlen. }
    destruct Hskills as (e4 & -> & He4). cbn [obind]. rewrite <- He4.
    clear He4. simpl in Hprim.
    destruct (lookup "comment" ps) as [| |[|]|[|z]|s| |] eqn:Ec;
      try discriminate Hprim.
    all: try (eexists; split; [reflexivity|];
              rewrite ?length_app; simpl; lia).
    - simpl. destruct (negb (z =? 0)%Z); simpl;
        eexists; (split; [reflexivity|]); rewrite ?length_app; simpl; lia.
    - simpl truthy. destruct (String.eqb_spec s "") as [->|Hne]; cbn [negb].
      + eexists. split; [reflexivity|]. rewrite length_app. simpl. lia.
      + pose proof (gt_length s) as Hgt.
        destruct (get (VStr s) "length") as [len| |]; try discriminate Hgt.
        cbn [obind] in *. rewrite Hgt. cbn [obind].
        destruct (500 <? String.length s)%nat;
          eexists; (split; [reflexivity|]); rewrite ?length_app; simpl; lia. }
  destruct Hgoal as (errs & Hrun & Hlen).
  exists errs. split; [exact Hrun|]. split; [exact Hlen|].
  rewrite <- Hlen. split.
  - now intros ->.
  - intros H0. now destruct errs.
Qed.

Lemma validateData_reports_every_violation_witness :
  exists errs,
    validateData (VObj flawed_props) = Ok errs
    /\ List.length errs = 3%nat
    /\ (errs = []%list <-> violations flawed_props = 0%nat).
Proof.
  apply (validateData_reports_every_violation flawed_props). reflexivity.
Defined.

End ValidationCounts.

Section GetHandler.

Variable stringify : get_result + error_result -> string.

Lemma getEntriesByTeacher_world teacherEmail w :
  snd (getEntriesByTeacher teacherEmail w)
  = with_sheet (header_row w :: data_rows w) w.
Proof.
  unfold getEntriesByTeacher, bind.
  pose proof (getAllEntries_world w) as Hw.
  destruct (getAllEntries w) as [[allData| |] w1]; cbn [snd] in Hw; subst w1;
    try reflexivity.
  unfold lift, ret. destruct (filter_outcome _ _); reflexivity.
Qed.

Lemma getEntriesByStudent_world studentName w :
  snd (getEntriesByStudent studentName w)
  = with_sheet (header_row w :: data_rows w) w.
Proof.
  unfold getEntriesByStudent, bind.
  pose proof (getAllEntries_world w) as Hw.
  destruct (getAllEntries w) as [[allData| |] w1]; cbn [snd] in Hw; subst w1;
    try reflexivity.
  unfold lift, ret. destruct (filter_outcome _ _); reflexivity.
Qed.

Lemma bind_ret_world {A B} (m : run A) (f : A -> B) w :
  snd ((x <- m ;; ret (f x)) w) = snd (m w).
Proof. unfold bind, ret. destruct (m w) as [[a| |] w1]; reflexivity. Qed.

Lemma dispatch_world e action w :
  snd (dispatch e action w) = w
  \/ snd (dispatch e action w) = with_sheet (header_row w :: data_rows w) w.
Proof.
  enough (H : forall w', snd (dispatch e action w) = w' ->
                         w' = w \/ w' = with_sheet (header_row w :: data_rows w) w).
  { destruct (H _ eq_refl) as [E|E]; rewrite E; auto. }
  intros w' H. unfold dispatch in H.
  destruct (strict_eq action (VStr "getAll")).
  { right. rewrite (bind_ret_world getAllEntries GetEntries w) in H.
    now rewrite getAllEntries_world in H. }
  destruct (strict_eq action (VStr "getByTeacher")).
  { unfold bind at 1, lift in H.
    destruct (get e "parameter") as [parameter| |]; [|now left|now left].
    unfold bind at 1 in H.
    destruct (get parameter "teacher") as [teacher| |]; [|now left|now left].
    right. rewrite (bind_ret_world (getEntriesByTeacher teacher) GetEntries w) in H.
    now rewrite getEntriesByTeacher_world in H. }
  destruct (strict_eq action (VStr "getByStudent")).
  { unfold bind at 1, lift in H.
    destruct (get e "parameter") as [parameter| |]; [|now left|now left].
    unfold bind at 1 in H.
    destruct (get parameter "student") as [student| |]; [|now left|now left].
    right. rewrite (bind_ret_world (getEntriesByStudent student) GetEntries w) in H.
    now rewrite getEntriesByStudent_world in H. }
  now left.
Qed.

Lemma doGet_world e w :
  snd (doGet stringify e w) = w
  \/ snd (doGet stringify e w) = with_sheet (header_row w :: data_rows w) w.
Proof.
  enough (H : forall w', snd (doGet stringify e w) = w' ->
                         w' = w \/ w' = with_sheet (header_row w :: data_rows w) w).
  { destruct (H _ eq_refl) as [E|E]; rewrite E; auto. }
  intros w' H.
  assert (Hd : forall action r w1,
             dispatch e action w = (r, w1) ->
             w1 = w \/ w1 = with_sheet (header_row w :: data_rows w) w).
  { intros action r w1 D. pose proof (dispatch_world e action w) as Hw.
    rewrite D in Hw. exact Hw. }
  unfold doGet, try_catch, bind, lift, ret in H.
  repeat match type of H with
         | context [match get ?a ?b with _ => _ end] =>
             destruct (get a b) eqn:?
         | context [dispatch e ?a w] =>
             let D := fresh "D" in
             destruct (dispatch e a w) as [[?|?|] ?] eqn:D;
             apply Hd in D
         | context [if truthy ?c then _ else _] => destruct (truthy c)
         | context [match jsonp ?a ?b with _ => _ end] => destruct (jsonp a b)
         end;
    cbn [snd] in H; subst w'; auto.
Qed.

(** X15.  doGet changes no data row and leaves the header row in place,
    whatever the request and whatever it returns. *)
Theorem doGet_changes_no_row :
  forall e w,
    data_rows (snd (doGet stringify e w)) = data_rows w
    /\ header_row (snd (doGet stringify e w)) = header_row w.
Proof.
  intros e w. destruct (doGet_world e w) as [-> | ->]; split; reflexivity.
Qed.

Lemma get_object ps k : get (VObj ps) k = Ok (lookup k ps).
Proof. reflexivity. Qed.

Lemma request_parameter params :
  get (request params) "parameter" = Ok (VObj params).
Proof. reflexivity. Qed.

Ltac read_fields :=
  repeat (progress (rewrite ?request_parameter, ?get_object, ?bind_lift_Ok;
                    cbv beta)).

Ltac read_fields_in H :=
  repeat (progress (rewrite ?request_parameter, ?get_object, ?bind_lift_Ok in H;
                    cbv beta in H)).

(** X16.  A request whose action is none of getAll, getByTeacher and
    getByStudent, and which names no callback, is answered with the
    message listing the actions, as JSON, and the spreadsheet is not
    touched: not even the tab is created. *)
Theorem doGet_unknown_action :
  forall params w,
    strict_eq (lookup "action" params) (VStr "getAll") = false ->
    strict_eq (lookup "action" params) (VStr "getByTeacher") = false ->
    strict_eq (lookup "action" params) (VStr "getByStudent") = false ->
    truthy (lookup "callback" params) = false ->
    doGet stringify (request params) w
    = (Ok (TextOutput (stringify (inl (GetMessage api_message))) JSON), w).
Proof.
  intros params w H1 H2 H3 Hc.
  unfold doGet. read_fields.
  unfold try_catch, dispatch. rewrite H1, H2, H3.
  unfold bind, ret. now rewrite Hc.
Qed.

Lemma dispatch_same_query params params' action w :
  lookup "teacher" params' = lookup "teacher" params ->
  lookup "student" params' = lookup "student" params ->
  dispatch (request params') action w = dispatch (request params) action w.
Proof.
  intros Ht Hs. unfold dispatch.
  destruct (strict_eq action (VStr "getAll")); [reflexivity|].
  destruct (strict_eq action (VStr "getByTeacher"));
    [read_fields; now rewrite Ht|].
  destruct (strict_eq action (VStr "getByStudent"));
    [read_fields; now rewrite Hs|].
  reflexivity.
Qed.

Lemma jsonp_string c body :
  jsonp (VStr c) body = Ok (c ++ "(" ++ body ++ ")")%string.
Proof. unfold jsonp. simpl. now rewrite append_assoc. Qed.

(** X17.  Naming a callback changes only the wrapping of the reply: when
    a request without callback is answered with a text as JSON, the same
    request with the callback c is answered, in the same resulting store,
    with c, an opening parenthesis, that text and a closing parenthesis,
    as JavaScript; this holds for failure envelopes as for results. *)
Theorem doGet_callback_wraps_reply :
  forall params params' c w body w',
    lookup "action" params' = lookup "action" params ->
    lookup "teacher" params' = lookup "teacher" params ->
    lookup "student" params' = lookup "student" params ->
    truthy (lookup "callback" params) = false ->
    lookup "callback" params' = VStr c -> c <> "" ->
    doGet stringify (request params) w = (Ok (TextOutput body JSON), w') ->
    doGet stringify (request params') w
    = (Ok (TextOutput (c ++ "(" ++ body ++ ")")%string JAVASCRIPT), w').
Proof.
  intros params params' c w body w' Ha Ht Hs Hno Hc Hne H.
  assert (Hyes : truthy (VStr c) = true).
  { simpl. destruct (String.eqb_spec c ""); [contradiction | reflexivity]. }
  unfold doGet in *. read_fields. read_fields_in H.
  rewrite Ha, Hc. unfold try_catch in *.
  unfold bind at 1. unfold bind at 1 in H.
  rewrite (dispatch_same_query params params' _ w Ht Hs).
  destruct (dispatch (request params) (lookup "action" params) w)
    as [[result|f|] w1].
  - rewrite Hyes. rewrite Hno in H. unfold ret in H.
    injection H as <- <-.
    unfold bind, lift, ret. now rewrite jsonp_string.
  - read_fields. read_fields_in H.
    rewrite Hc, Hyes. rewrite Hno in H.
    unfold ret in H. injection H as <- <-.
    unfold bind, lift, ret. now rewrite jsonp_string.
  - discriminate H.
Qed.

(** X18.  A fault raised while the entries are read does not escape
    doGet: when getAllEntries throws, a getAll request without callback
    is answered with the failure envelope carrying that fault, as JSON. *)
Theorem doGet_reports_fault :
  forall params w f w',
    lookup "action" params = VStr "getAll" ->
    truthy (lookup "callback" params) = false ->
    getAllEntries w = (Throw f, w') ->
    doGet stringify (request params) w
    = (Ok (TextOutput (stringify (inr (ErrorResult false f))) JSON), w').
Proof.
  intros params w f w' Ha Hc Hthrow.
  unfold doGet. read_fields.
  rewrite Ha. unfold try_catch, dispatch.
  change (strict_eq (VStr "getAll") (VStr "getAll")) with true. cbv iota.
  unfold bind at 1. unfold bind at 1. rewrite Hthrow.
  read_fields. now rewrite Hc.
Qed.

End GetHandler.

Section GetHandlerRuns.

Lemma doGet_unknown_action_witness :
  doGet sample_stringify (request []%list) fresh_world
  = (Ok (TextOutput api_message JSON), fresh_world).
Proof.
  apply (doGet_unknown_action sample_stringify []%list fresh_world);
    reflexivity.
Defined.

Lemma doGet_callback_wraps_reply_witness :
  doGet sample_stringify
    (request [("action", VStr "getAll"); ("callback", VStr "show")]%list)
    three_comments_world
  = (Ok (TextOutput "show(entries:3)" JAVASCRIPT), three_comments_world).
Proof.
  apply (doGet_callback_wraps_reply sample_stringify
           [("action", VStr "getAll")]%list
           [("action", VStr "getAll"); ("callback", VStr "show")]%list
           "show" three_comments_world "entries:3" three_comments_world);
    try reflexivity.
  discriminate.
Defined.

Lemma doGet_reports_fault_witness :
  doGet sample_stringify (request [("action", VStr "getAll")]%list)
    numeric_header_world
  = (Ok (TextOutput "error" JSON), numeric_header_world).
Proof.
  apply (doGet_reports_fault sample_stringify [("action", VStr "getAll")]%list
           numeric_header_world
           (TypeError (VNum (Int 2024)) "toLowerCase") numeric_header_world);
    reflexivity.
Defined.

End GetHandlerRuns.
